(** * Pollo Control: ledger, metrics, ticket encoder and scale adapter

    A shallow embedding of the accounting core of the weighing application
    ([types.ts], [App.tsx], [components/WeighingPanel.tsx]) together with the
    properties its specification states about it.

    Numbers.  The ledger's JavaScript numbers (weights, crate counts, stock)
    are embedded as exact rationals [Q]: the order, the sums and the guarded
    divisions of the code are kept, IEEE-754 rounding is not represented.
    Statements about numeric results therefore use [==] ([Qeq]).  Where the
    code itself tests for a value that is not a rational ([isNaN] in the
    weighing form) the embedding uses the four-way type [number] below. *)

From Stdlib Require Import QArith Qminmax Qround Qabs Lqa ZArith Lia.
From Stdlib Require Import List String Ascii Bool DecimalString.
Import ListNotations.
Local Open Scope Q_scope.

(** ** JavaScript primitives used by the code *)

(** [a > b] on finite numbers. *)
Definition gt (a b : Q) : bool := negb (Qle_bool a b).

(** [Math.max(a, b)] on finite numbers. *)
Definition Math_max (a b : Q) : Q := Qmax a b.

(** [xs.reduce(f, init)]. *)
Definition reduce {A B : Type} (f : B -> A -> B) (init : B) (xs : list A) : B :=
  fold_left f xs init.

(** [Date.now().toString()]: the decimal numeral of an integer time stamp. *)
Definition toString (n : Z) : string := NilZero.string_of_int (Z.to_int n).

(** [s === t] on strings. *)
Definition streq (s t : string) : bool := String.eqb s t.

(** A [string | null] state cell; [!x] holds for [null] and for the empty
    string. *)
Definition truthy (x : option string) : bool :=
  match x with
  | Some s => negb (streq s "")
  | None => false
  end.

(** [x === s] for a [string | null] cell [x]. *)
Definition is_id (x : option string) (s : string) : bool :=
  match x with
  | Some t => streq s t
  | None => false
  end.

(** ** Data model ([types.ts]) *)

Module WeightEntry.
Record t : Type := mk
  { id : string; weight : Q; crateCount : Q; timestamp : Z }.
End WeightEntry.

Module MortalityEntry.
Record t : Type := mk
  { id : string; count : Q; weight : Q; timestamp : Z }.
End MortalityEntry.

Module Sale.
Record t : Type := mk
  { id : string;
    clientName : string;
    targetFullCrates : Q;
    createdAt : Z;
    fullCrates : list WeightEntry.t;
    emptyCrates : list WeightEntry.t;
    mortality : list MortalityEntry.t;
    isCompleted : bool }.

(** [{ ...sale, fullCrates: l }] and its siblings. *)
Definition with_fullCrates (s : t) (l : list WeightEntry.t) : t :=
  mk (id s) (clientName s) (targetFullCrates s) (createdAt s)
     l (emptyCrates s) (mortality s) (isCompleted s).
Definition with_emptyCrates (s : t) (l : list WeightEntry.t) : t :=
  mk (id s) (clientName s) (targetFullCrates s) (createdAt s)
     (fullCrates s) l (mortality s) (isCompleted s).
Definition with_mortality (s : t) (l : list MortalityEntry.t) : t :=
  mk (id s) (clientName s) (targetFullCrates s) (createdAt s)
     (fullCrates s) (emptyCrates s) l (isCompleted s).
Definition with_isCompleted (s : t) (b : bool) : t :=
  mk (id s) (clientName s) (targetFullCrates s) (createdAt s)
     (fullCrates s) (emptyCrates s) (mortality s) b.
End Sale.

Module Provider.
Record t : Type := mk
  { id : string;
    name : string;
    logo : option string;
    initialFullCrates : Q;
    chickensPerCrate : Q;
    createdAt : Z;
    sales : list Sale.t;
    isActive : bool }.

(** [{ ...p, sales: l }]. *)
Definition with_sales (p : t) (l : list Sale.t) : t :=
  mk (id p) (name p) (logo p) (initialFullCrates p) (chickensPerCrate p)
     (createdAt p) l (isActive p).
End Provider.

(** ** Metric calculations ([calculateSaleMetrics], src/src/App.tsx) *)

Record Metrics : Type := mkMetrics
  { fullWeight : Q; fullCount : Q;
    emptyWeight : Q; emptyCount : Q;
    avgTare : Q; totalTare : Q;
    deadCount : Q; deadWeight : Q;
    netWeight : Q;
    totalBirds : Q; avgWeightPerBird : Q }.

(** The second parameter is optional in the source and defaults to 9. *)
Definition calculateSaleMetrics (sale : Sale.t) (chickensPerCrate : option Q)
  : Metrics :=
  let chickensPerCrate :=
    match chickensPerCrate with Some c => c | None => 9 end in
  let fullWeight :=
    reduce (fun a b => a + WeightEntry.weight b) 0 (Sale.fullCrates sale) in
  let fullCount :=
    reduce (fun a b => a + WeightEntry.crateCount b) 0 (Sale.fullCrates sale) in
  let emptyWeight :=
    reduce (fun a b => a + WeightEntry.weight b) 0 (Sale.emptyCrates sale) in
  let emptyCount :=
    reduce (fun a b => a + WeightEntry.crateCount b) 0 (Sale.emptyCrates sale) in
  let deadCount :=
    reduce (fun a b => a + MortalityEntry.count b) 0 (Sale.mortality sale) in
  let deadWeight :=
    reduce (fun a b => a + MortalityEntry.weight b) 0 (Sale.mortality sale) in
  let avgTare := if gt emptyCount 0 then emptyWeight / emptyCount else 5 # 2 in
  let totalTare := fullCount * avgTare in
  let netWeight := Math_max 0 (fullWeight - totalTare - deadWeight) in
  let totalBirds := fullCount * chickensPerCrate - deadCount in
  let avgWeightPerBird := if gt totalBirds 0 then netWeight / totalBirds else 0 in
  mkMetrics fullWeight fullCount emptyWeight emptyCount avgTare totalTare
            deadCount deadWeight netWeight totalBirds avgWeightPerBird.

(** The sum of a numeric field over a list of entries, as the specification
    writes it: [total f l] is the sum of [f e] for [e] in [l]. *)
Fixpoint total {A : Type} (f : A -> Q) (l : list A) : Q :=
  match l with
  | [] => 0
  | e :: r => f e + total f r
  end.

(** ** Application state ([App], both App.tsx files)

    The component keeps the provider collection and two selections; the
    current provider and its sales are derived on every render. *)

Record AppState : Type := mkApp
  { providers : list Provider.t;
    selectedProviderId : option string;
    currentSaleId : option string }.

(** [providers.find(p => p.id === selectedProviderId)]. *)
Definition currentProvider (st : AppState) : option Provider.t :=
  find (fun p => is_id (selectedProviderId st) (Provider.id p)) (providers st).

(** [currentProvider?.sales || []]. *)
Definition currentSales (st : AppState) : list Sale.t :=
  match currentProvider st with
  | Some p => Provider.sales p
  | None => []
  end.

Definition setCurrentSaleId (x : option string) (st : AppState) : AppState :=
  mkApp (providers st) (selectedProviderId st) x.

Definition handleUpdateProviderSales
  (providerId : string) (updatedSales : list Sale.t) (st : AppState) : AppState :=
  mkApp
    (map (fun p =>
            if streq (Provider.id p) providerId
            then Provider.with_sales p updatedSales
            else p)
         (providers st))
    (selectedProviderId st) (currentSaleId st).

(** ** Sale operations *)

Inductive EntryType : Type := FULL | EMPTY | MORTALITY.

(** The map body of [toggleSaleLock]. *)
Definition toggled (saleId : string) (s : Sale.t) : Sale.t :=
  if streq (Sale.id s) saleId
  then Sale.with_isCompleted s (negb (Sale.isCompleted s))
  else s.

Definition toggleSaleLock (saleId : string) (st : AppState) : AppState :=
  match selectedProviderId st with
  | Some pid =>
      if negb (truthy (Some pid)) then st
      else
        let updatedSales := map (toggled saleId) (currentSales st) in
        handleUpdateProviderSales pid updatedSales st
  | None => st
  end.

(** The crate count of a list of crate entries,
    [l.reduce((sum, c) => sum + c.crateCount, 0)]. *)
Definition crateSum (l : list WeightEntry.t) : Q :=
  reduce (fun sum c => sum + WeightEntry.crateCount c) 0 l.

(** [currentSales.reduce((acc, s) => acc + s.fullCrates.reduce(...), 0)]. *)
Definition totalSoldGlobal (sales : list Sale.t) : Q :=
  reduce (fun acc s => acc + crateSum (Sale.fullCrates s)) 0 sales.

(** The three object spreads of [addWeight]: [sale] with one entry more
    at the end of the sequence of kind [type]. *)
Definition pushEntry (type : EntryType) (entryId : string)
  (weight count : Q) (timestamp : Z) (sale : Sale.t) : Sale.t :=
  match type with
  | FULL =>
      Sale.with_fullCrates sale
        (Sale.fullCrates sale ++ [WeightEntry.mk entryId weight count timestamp])
  | EMPTY =>
      Sale.with_emptyCrates sale
        (Sale.emptyCrates sale ++ [WeightEntry.mk entryId weight count timestamp])
  | MORTALITY =>
      Sale.with_mortality sale
        (Sale.mortality sale ++ [MortalityEntry.mk entryId count weight timestamp])
  end.

(** The map body shared by both versions of [addWeight]: the sale selected
    by [currentSaleId] receives the new entry unless it is locked. *)
Definition appendEntry (type : EntryType) (currentSaleId entryId : string)
  (weight count : Q) (timestamp : Z) (sale : Sale.t) : Sale.t :=
  if streq (Sale.id sale) currentSaleId then
    if Sale.isCompleted sale then sale
    else pushEntry type entryId weight count timestamp sale
  else sale.

(** [addWeight] of src/src/App.tsx.  Its three alerts carry no figures.
    [now] and [now'] are the two successive readings of [Date.now()] that
    give the entry its id and its time stamp.  The result pairs the alert
    shown, if any, with the next state. *)
Inductive Alert : Type :=
| StockInsuficiente
| LimiteExcedido
| MasVaciasQueLlenas.

Definition addWeight (type : EntryType) (weight count : Q) (now now' : Z)
  (st : AppState) : option Alert * AppState :=
  match currentSaleId st, selectedProviderId st, currentProvider st with
  | Some sid, Some pid, Some currentProvider =>
      if negb (truthy (Some sid)) || negb (truthy (Some pid)) then (None, st)
      else
        match find (fun s => streq (Sale.id s) sid) (currentSales st) with
        | None => (None, st)
        | Some currentSale =>
            let stock :=
              match type with
              | FULL =>
                  let totalSoldGlobal := totalSoldGlobal (currentSales st) in
                  if gt (totalSoldGlobal + count)
                        (Provider.initialFullCrates currentProvider)
                  then Some StockInsuficiente
                  else
                    let currentClientCount :=
                      crateSum (Sale.fullCrates currentSale) in
                    if gt (currentClientCount + count)
                          (Sale.targetFullCrates currentSale)
                    then Some LimiteExcedido
                    else None
              | _ => None
              end in
            match stock with
            | Some a => (Some a, st)
            | None =>
                let empties :=
                  match type with
                  | EMPTY =>
                      let totalFullCrates :=
                        crateSum (Sale.fullCrates currentSale) in
                      let totalEmptyCrates :=
                        crateSum (Sale.emptyCrates currentSale) in
                      if gt (totalEmptyCrates + count) totalFullCrates
                      then Some MasVaciasQueLlenas
                      else None
                  | _ => None
                  end in
                match empties with
                | Some a => (Some a, st)
                | None =>
                    let entryId := toString now in
                    let timestamp := now' in
                    let updatedSales :=
                      map (appendEntry type sid entryId weight count timestamp)
                          (currentSales st) in
                    (None, handleUpdateProviderSales pid updatedSales st)
                end
            end
        end
  | _, _, _ => (None, st)
  end.

(** ** The versions of src/App.tsx

    [calculateSaleMetrics] takes the sale only and stops at [netWeight];
    [addWeight] makes the same checks and the same commit, with alerts that
    quote the figures involved. *)
Module Root.
Record Metrics : Type := mkMetrics
  { fullWeight : Q; fullCount : Q;
    emptyWeight : Q; emptyCount : Q;
    avgTare : Q; totalTare : Q;
    deadCount : Q; deadWeight : Q;
    netWeight : Q }.

Definition calculateSaleMetrics (sale : Sale.t) : Metrics :=
  let fullWeight :=
    reduce (fun a b => a + WeightEntry.weight b) 0 (Sale.fullCrates sale) in
  let fullCount :=
    reduce (fun a b => a + WeightEntry.crateCount b) 0 (Sale.fullCrates sale) in
  let emptyWeight :=
    reduce (fun a b => a + WeightEntry.weight b) 0 (Sale.emptyCrates sale) in
  let emptyCount :=
    reduce (fun a b => a + WeightEntry.crateCount b) 0 (Sale.emptyCrates sale) in
  let deadCount :=
    reduce (fun a b => a + MortalityEntry.count b) 0 (Sale.mortality sale) in
  let deadWeight :=
    reduce (fun a b => a + MortalityEntry.weight b) 0 (Sale.mortality sale) in
  let avgTare := if gt emptyCount 0 then emptyWeight / emptyCount else 5 # 2 in
  let totalTare := fullCount * avgTare in
  let netWeight := Math_max 0 (fullWeight - totalTare - deadWeight) in
  mkMetrics fullWeight fullCount emptyWeight emptyCount avgTare totalTare
            deadCount deadWeight netWeight.

Inductive Alert : Type :=
| StockInsuficiente (restante : Q)
| LimiteExcedido (clientName : string) (targetFullCrates llevas : Q)
| MasVaciasQueLlenas (vacias llenas : Q).

Definition addWeight (type : EntryType) (weight count : Q) (now now' : Z)
  (st : AppState) : option Alert * AppState :=
  match currentSaleId st, selectedProviderId st, currentProvider st with
  | Some sid, Some pid, Some currentProvider =>
      if negb (truthy (Some sid)) || negb (truthy (Some pid)) then (None, st)
      else
        match find (fun s => streq (Sale.id s) sid) (currentSales st) with
        | None => (None, st)
        | Some currentSale =>
            let stock :=
              match type with
              | FULL =>
                  let totalSoldGlobal := totalSoldGlobal (currentSales st) in
                  if gt (totalSoldGlobal + count)
                        (Provider.initialFullCrates currentProvider)
                  then Some (StockInsuficiente
                               (Provider.initialFullCrates currentProvider
                                - totalSoldGlobal))
                  else
                    let currentClientCount :=
                      crateSum (Sale.fullCrates currentSale) in
                    if gt (currentClientCount + count)
                          (Sale.targetFullCrates currentSale)
                    then Some (LimiteExcedido
                                 (Sale.clientName currentSale)
                                 (Sale.targetFullCrates currentSale)
                                 currentClientCount)
                    else None
              | _ => None
              end in
            match stock with
            | Some a => (Some a, st)
            | None =>
                let empties :=
                  match type with
                  | EMPTY =>
                      let totalFullCrates :=
                        crateSum (Sale.fullCrates currentSale) in
                      let totalEmptyCrates :=
                        crateSum (Sale.emptyCrates currentSale) in
                      if gt (totalEmptyCrates + count) totalFullCrates
                      then Some (MasVaciasQueLlenas
                                   (totalEmptyCrates + count) totalFullCrates)
                      else None
                  | _ => None
                  end in
                match empties with
                | Some a => (Some a, st)
                | None =>
                    let entryId := toString now in
                    let timestamp := now' in
                    let updatedSales :=
                      map (appendEntry type sid entryId weight count timestamp)
                          (currentSales st) in
                    (None, handleUpdateProviderSales pid updatedSales st)
                end
            end
        end
  | _, _, _ => (None, st)
  end.
End Root.

(** The three object spreads of [deleteEntry]: [sale] without the entries
    of kind [type] whose id is [id]. *)
Definition dropEntry (type : EntryType) (id : string) (sale : Sale.t) : Sale.t :=
  match type with
  | FULL =>
      Sale.with_fullCrates sale
        (filter (fun e => negb (streq (WeightEntry.id e) id)) (Sale.fullCrates sale))
  | EMPTY =>
      Sale.with_emptyCrates sale
        (filter (fun e => negb (streq (WeightEntry.id e) id)) (Sale.emptyCrates sale))
  | MORTALITY =>
      Sale.with_mortality sale
        (filter (fun e => negb (streq (MortalityEntry.id e) id)) (Sale.mortality sale))
  end.

(** The map body of [deleteEntry]. *)
Definition removeEntry (type : EntryType) (currentSaleId id : string)
  (sale : Sale.t) : Sale.t :=
  if streq (Sale.id sale) currentSaleId then
    if Sale.isCompleted sale then sale
    else dropEntry type id sale
  else sale.

Definition deleteEntry (type : EntryType) (id : string) (st : AppState)
  : AppState :=
  match currentSaleId st, selectedProviderId st with
  | Some sid, Some pid =>
      if negb (truthy (Some sid)) || negb (truthy (Some pid)) then st
      else
        handleUpdateProviderSales pid
          (map (removeEntry type sid id) (currentSales st)) st
  | _, _ => st
  end.

(** ** The weighing form ([handleSubmit], components/WeighingPanel.tsx)

    The form parses its two text fields with [parseFloat], which yields a
    JavaScript number: a rational, one of the two infinities, or [NaN]. *)

Inductive number : Type :=
| NaN
| Infinity
| NegInfinity
| Finite (q : Q).

Definition isNaN (x : number) : bool :=
  match x with NaN => true | _ => false end.

(** [x > b] for a parsed number [x] and a finite bound [b]. *)
Definition number_gt (x : number) (b : Q) : bool :=
  match x with
  | NaN => false
  | Infinity => true
  | NegInfinity => false
  | Finite q => gt q b
  end.

Module WeighingPanel.
(** [maxAllowed !== undefined && !isNaN(currentCountVal) &&
    currentCountVal > maxAllowed], with [currentCountVal] the parsed count
    field. *)
Definition isOverLimit (maxAllowed : option Q) (currentCountVal : number)
  : bool :=
  match maxAllowed with
  | Some m => negb (isNaN currentCountVal) && number_gt currentCountVal m
  | None => false
  end.

(** [w] and [c] are [parseFloat(weight)] and [parseFloat(count)].  The
    result is the pair handed to [onAdd], or [None] when the handler
    returns without calling it. *)
Definition handleSubmit (disabled : bool) (maxAllowed : option Q)
  (w c : number) : option (number * number) :=
  if disabled then None
  else if isOverLimit maxAllowed c then None
  else if negb (isNaN w) && negb (isNaN c) && number_gt w 0 && number_gt c 0
       then Some (w, c)
       else None.
End WeighingPanel.

(** A panel of kind [type] wired as in the sale view,
    [onAdd={(w, c) => addWeight(type, w, c)}].  When the form hands a
    non-finite number to [addWeight] the entry it stores is outside the
    rational ledger and the step has no image ([None] at top level). *)
Definition submitWeight (type : EntryType) (disabled : bool)
  (maxAllowed : option Q) (w c : number) (now now' : Z) (st : AppState)
  : option (option Alert * AppState) :=
  match WeighingPanel.handleSubmit disabled maxAllowed w c with
  | None => Some (None, st)
  | Some (Finite w', Finite c') => Some (addWeight type w' c' now now' st)
  | Some _ => None
  end.

(** ** Text primitives *)

Local Open Scope string_scope.

Definition nl : string := String "010" "".

Definition isDigit (c : ascii) : bool :=
  (48 <=? N_of_ascii c)%N && (N_of_ascii c <=? 57)%N.

Definition digitValue (c : ascii) : Z := Z.of_N (N_of_ascii c) - 48.

Definition digitChar (d : Z) : ascii :=
  match d with
  | 0%Z => "0" | 1%Z => "1" | 2%Z => "2" | 3%Z => "3" | 4%Z => "4"
  | 5%Z => "5" | 6%Z => "6" | 7%Z => "7" | 8%Z => "8" | _ => "9"
  end%char.

(** The numeral of a natural number, most significant digit first. *)
Fixpoint digits (fuel : nat) (n : Z) : string :=
  match fuel with
  | O => ""
  | S fuel' =>
      if (n <? 10)%Z then String (digitChar n) ""
      else digits fuel' (n / 10) ++ String (digitChar (n mod 10)) ""
  end.

Definition decimal (n : Z) : string := digits (S (Z.to_nat (Z.log2 n))) n.

(** The last [width] digits of [n], zero padded. *)
Fixpoint padded (width : nat) (n : Z) : string :=
  match width with
  | O => ""
  | S w => padded w (n / 10) ++ String (digitChar (n mod 10)) ""
  end.

(** [x.toFixed(f)] for [|x| < 1e21]: the integer [n] closest to
    [x * 10^f], the larger one on a tie, printed with [f] decimals. *)
Definition toFixed (f : nat) (x : Q) : string :=
  let p := (10 ^ Z.of_nat f)%Z in
  let n := Qfloor (Qabs x * inject_Z p + (1 # 2)) in
  (if gt 0 x then "-" else "")
  ++ decimal (n / p)
  ++ match f with
     | O => ""
     | S _ => "." ++ padded f (n mod p)
     end.

(** The longest prefix of digits and what follows it. *)
Fixpoint spanDigits (s : string) : string * string :=
  match s with
  | String c r =>
      if isDigit c
      then let (ds, rest) := spanDigits r in (String c ds, rest)
      else ("", s)
  | "" => ("", "")
  end.

Fixpoint valueFrom (acc : Z) (s : string) : Z :=
  match s with
  | String c r => valueFrom (10 * acc + digitValue c) r
  | "" => acc
  end.

(** [parseFloat] on an unsigned decimal numeral, the only argument the
    scale adapter gives it: the digits, then optionally a point and more
    digits; [NaN] when the text does not start with a digit. *)
Definition parseFloat (s : string) : number :=
  let (ip, rest) := spanDigits s in
  match ip with
  | "" => NaN
  | _ =>
      let fp := match rest with
                | String c r =>
                    if Ascii.eqb c "." then fst (spanDigits r) else ""
                | "" => ""
                end in
      Finite (inject_Z (valueFrom 0 ip)
              + inject_Z (valueFrom 0 fp)
                / inject_Z (10 ^ Z.of_nat (String.length fp)))
  end.

(** The optional group [(\.[\d]+)?] of the scale pattern, matched against
    what follows the digits: a point and the digits after it when there is
    at least one, nothing otherwise. *)
Definition fractionOf (rest : string) : string :=
  match rest with
  | String d r' =>
      if Ascii.eqb d "." then
        match fst (spanDigits r') with
        | "" => ""
        | fs => String "." fs
        end
      else ""
  | "" => ""
  end.

(** [text.match(/[\d]+(\.[\d]+)?/)]: the match starts at the first digit,
    takes the whole run of digits, and a point only when a digit follows it. *)
Fixpoint regexMatch (text : string) : option string :=
  match text with
  | String c r =>
      if isDigit c then
        let (ds, rest) := spanDigits text in
        Some (ds ++ fractionOf rest)
      else regexMatch r
  | "" => None
  end.

(** ** Scale reading adapter ([readScaleWeight])

    [scaleChar] is the connected characteristic, if any, with the text of
    its last value, if any; [random] is the draw of [Math.random()]. *)
Definition simulatedWeight (random : Q) : number :=
  parseFloat (toFixed 2 (random * 20 + 10)).

Definition readScaleWeight (scaleChar : option (option string)) (random : Q)
  : number :=
  match scaleChar with
  | Some (Some text) =>
      match regexMatch text with
      | Some m => parseFloat m
      | None => simulatedWeight random
      end
  | _ => simulatedWeight random
  end.

(** ** ESC/POS printer helpers ([COMMANDS]) *)

Definition ESC : string := String "027" "".
Definition GS : string := String "029" "".

Module COMMANDS.
Definition INIT : string := ESC ++ "@".
Definition BOLD_ON : string := ESC ++ "E" ++ String "001" "".
Definition BOLD_OFF : string := ESC ++ "E" ++ String "000" "".
Definition CENTER : string := ESC ++ "a" ++ String "001" "".
Definition LEFT : string := ESC ++ "a" ++ String "000" "".
Definition CUT : string := GS ++ "V" ++ "A" ++ String "000" "".
End COMMANDS.

(** [text.replace(/c/g, '')] for a single character [c]. *)
Fixpoint removeChar (c : ascii) (text : string) : string :=
  match text with
  | String d r =>
      if Ascii.eqb d c then removeChar c r else String d (removeChar c r)
  | "" => ""
  end.

(** The text shown by [renderTicketModal] (and printed by
    [printViaBrowser]): [ticketContent.replace(/\x1b/g, '').replace(/\x1d/g, '')]. *)
Definition preview (ticketContent : string) : string :=
  removeChar "029" (removeChar "027" ticketContent).

(** The byte stream written to the printer characteristic. *)
Definition printerData (text : string) : string :=
  COMMANDS.INIT ++ text ++ nl ++ nl ++ nl ++ COMMANDS.CUT.

(** ** Reports ([generateTicket], [generateProviderSummary], src/src/App.tsx)

    The tickets interpolate text produced by the JavaScript runtime: the
    locale rendering of a date, the upper-casing of a name and the default
    rendering of a number.  These three are parameters of the encoder. *)

Section Reports.

Variable toLocaleString : Z -> string.
Variable toUpperCase : string -> string.
Variable String_ : Q -> string.

Definition rule : string := "--------------------------------".

Definition generateTicket (sale : Sale.t) (provider : Provider.t) : string :=
  let m := calculateSaleMetrics sale (Some (Provider.chickensPerCrate provider)) in
  let date := toLocaleString (Sale.createdAt sale) in
  nl
  ++ COMMANDS.CENTER ++ "POLLO CONTROL PRO" ++ nl
  ++ "PROVEEDOR: " ++ toUpperCase (Provider.name provider) ++ nl
  ++ rule ++ nl
  ++ "CLIENTE: " ++ toUpperCase (Sale.clientName sale) ++ nl
  ++ "FECHA: " ++ date ++ nl
  ++ (if Sale.isCompleted sale then "(VENTA CERRADA)" else "(PENDIENTE)") ++ nl
  ++ rule ++ nl
  ++ COMMANDS.LEFT ++ nl
  ++ "Jabas Solicitadas: " ++ String_ (Sale.targetFullCrates sale) ++ nl
  ++ "Jabas Llenas:      " ++ String_ (fullCount m) ++ nl
  ++ "Peso Bruto:        " ++ toFixed 2 (fullWeight m) ++ " kg" ++ nl
  ++ "Jabas Vacias:      " ++ String_ (emptyCount m) ++ nl
  ++ "Tara (Prom):       " ++ toFixed 2 (totalTare m) ++ " kg" ++ nl
  ++ "Muertos:           " ++ String_ (deadCount m) ++ " und" ++ nl
  ++ "Peso Muertos:      " ++ toFixed 2 (deadWeight m) ++ " kg" ++ nl
  ++ rule ++ nl
  ++ COMMANDS.BOLD_ON ++ "PESO NETO:      " ++ toFixed 2 (netWeight m) ++ " kg"
  ++ COMMANDS.BOLD_OFF ++ nl
  ++ "Prom. Pollo:       " ++ toFixed 3 (avgWeightPerBird m) ++ " kg" ++ nl
  ++ rule ++ nl.

(** The accumulator of [generateProviderSummary]. *)
Record Totals : Type := mkTotals
  { fc : Q; fw : Q; ec : Q; tt : Q; dc : Q; dw : Q; nw : Q; birds : Q }.

(** [now] is the reading of the clock by [new Date()]. *)
Definition generateProviderSummary (now : Z) (st : AppState) : string :=
  match currentProvider st with
  | None => ""
  | Some currentProvider =>
      let totals :=
        reduce
          (fun acc sale =>
             let m := calculateSaleMetrics sale
                        (Some (Provider.chickensPerCrate currentProvider)) in
             mkTotals (fc acc + fullCount m) (fw acc + fullWeight m)
                      (ec acc + emptyCount m) (tt acc + totalTare m)
                      (dc acc + deadCount m) (dw acc + deadWeight m)
                      (nw acc + netWeight m) (birds acc + totalBirds m))
          (mkTotals 0 0 0 0 0 0 0 0) (currentSales st) in
      let totalAvg := if gt (birds totals) 0 then nw totals / birds totals else 0 in
      let date := toLocaleString now in
      nl
      ++ COMMANDS.CENTER ++ "RESUMEN DE PROVEEDOR" ++ nl
      ++ toUpperCase (Provider.name currentProvider) ++ nl
      ++ date ++ nl
      ++ rule ++ nl
      ++ COMMANDS.LEFT ++ nl
      ++ "Total Ventas:   "
      ++ String_ (inject_Z (Z.of_nat (List.length (currentSales st)))) ++ nl
      ++ "Stock Inicial:  "
      ++ String_ (Provider.initialFullCrates currentProvider) ++ " Jabas" ++ nl
      ++ "Jabas Vendidas: " ++ String_ (fc totals) ++ nl
      ++ "Stock Actual:   "
      ++ String_ (Provider.initialFullCrates currentProvider - fc totals) ++ nl
      ++ rule ++ nl
      ++ "Peso Bruto Tot: " ++ toFixed 2 (fw totals) ++ " kg" ++ nl
      ++ "Tara Total:     " ++ toFixed 2 (tt totals) ++ " kg" ++ nl
      ++ "Muertos Total:  " ++ String_ (dc totals) ++ " u / "
      ++ toFixed 2 (dw totals) ++ " kg" ++ nl
      ++ rule ++ nl
      ++ COMMANDS.BOLD_ON ++ "NETO TOTAL:     " ++ toFixed 2 (nw totals) ++ " kg"
      ++ COMMANDS.BOLD_OFF ++ nl
      ++ "PROMEDIO POLLO: " ++ toFixed 3 totalAvg ++ " kg" ++ nl
      ++ rule ++ nl
  end.

(** The human-readable lines of the per-client ticket: the text of
    [generateTicket] without the printer directives. *)
Definition ticketLines (sale : Sale.t) (provider : Provider.t) : string :=
  let m := calculateSaleMetrics sale (Some (Provider.chickensPerCrate provider)) in
  let date := toLocaleString (Sale.createdAt sale) in
  nl
  ++ "POLLO CONTROL PRO" ++ nl
  ++ "PROVEEDOR: " ++ toUpperCase (Provider.name provider) ++ nl
  ++ rule ++ nl
  ++ "CLIENTE: " ++ toUpperCase (Sale.clientName sale) ++ nl
  ++ "FECHA: " ++ date ++ nl
  ++ (if Sale.isCompleted sale then "(VENTA CERRADA)" else "(PENDIENTE)") ++ nl
  ++ rule ++ nl
  ++ nl
  ++ "Jabas Solicitadas: " ++ String_ (Sale.targetFullCrates sale) ++ nl
  ++ "Jabas Llenas:      " ++ String_ (fullCount m) ++ nl
  ++ "Peso Bruto:        " ++ toFixed 2 (fullWeight m) ++ " kg" ++ nl
  ++ "Jabas Vacias:      " ++ String_ (emptyCount m) ++ nl
  ++ "Tara (Prom):       " ++ toFixed 2 (totalTare m) ++ " kg" ++ nl
  ++ "Muertos:           " ++ String_ (deadCount m) ++ " und" ++ nl
  ++ "Peso Muertos:      " ++ toFixed 2 (deadWeight m) ++ " kg" ++ nl
  ++ rule ++ nl
  ++ "PESO NETO:      " ++ toFixed 2 (netWeight m) ++ " kg" ++ nl
  ++ "Prom. Pollo:       " ++ toFixed 3 (avgWeightPerBird m) ++ " kg" ++ nl
  ++ rule ++ nl.

End Reports.

(** ** Operator actions and traces

    One step of the ledger is a selection of the current sale
    ([setCurrentSaleId]), an addition, a deletion or a lock toggle. *)

Local Open Scope Q_scope.

Inductive Action : Type :=
| Select (saleId : option string)
| Add (type : EntryType) (weight count : Q) (now now' : Z)
| Delete (type : EntryType) (id : string)
| Toggle (saleId : string).

Definition step (a : Action) (st : AppState) : AppState :=
  match a with
  | Select x => setCurrentSaleId x st
  | Add type weight count now now' => snd (addWeight type weight count now now' st)
  | Delete type id => deleteEntry type id st
  | Toggle saleId => toggleSaleLock saleId st
  end.

Definition run (actions : list Action) (st : AppState) : AppState :=
  fold_left (fun s a => step a s) actions st.

(** ** Notions of the specification *)

(** Crates sold by a sale and by a whole provider. *)
Definition fullCountOf (s : Sale.t) : Q :=
  total WeightEntry.crateCount (Sale.fullCrates s).

Definition emptyCountOf (s : Sale.t) : Q :=
  total WeightEntry.crateCount (Sale.emptyCrates s).

Definition soldAcross (sales : list Sale.t) : Q := total fullCountOf sales.

(** The provider stock invariant. *)
Definition stockRespected (p : Provider.t) : Prop :=
  soldAcross (Provider.sales p) <= Provider.initialFullCrates p.

(** The empty-crate invariant of a sale. *)
Definition emptiesWithinFull (s : Sale.t) : Prop :=
  emptyCountOf s <= fullCountOf s.

(** Sale ids identify the sales of a provider. *)
Definition distinctSaleIds (sales : list Sale.t) : Prop :=
  NoDup (map Sale.id sales).

(** Every crate entry of the sale counts a positive number of crates, as
    the weighing form guarantees for what it submits. *)
Definition positiveCrates (s : Sale.t) : Prop :=
  Forall (fun e => 0 < WeightEntry.crateCount e) (Sale.fullCrates s) /\
  Forall (fun e => 0 < WeightEntry.crateCount e) (Sale.emptyCrates s).



(** No entry of the list targeted by [type] carries the id [id]. *)
Definition isFresh (type : EntryType) (id : string) (s : Sale.t) : bool :=
  match type with
  | FULL => forallb (fun e => negb (streq (WeightEntry.id e) id)) (Sale.fullCrates s)
  | EMPTY => forallb (fun e => negb (streq (WeightEntry.id e) id)) (Sale.emptyCrates s)
  | MORTALITY =>
      forallb (fun e => negb (streq (MortalityEntry.id e) id)) (Sale.mortality s)
  end.

(** The two entry sequences an operation of kind [type] does not target
    are the same in [s] and [s']. *)
Definition otherSequencesKept (type : EntryType) (s s' : Sale.t) : Prop :=
  match type with
  | FULL =>
      Sale.emptyCrates s' = Sale.emptyCrates s /\ Sale.mortality s' = Sale.mortality s
  | EMPTY =>
      Sale.fullCrates s' = Sale.fullCrates s /\ Sale.mortality s' = Sale.mortality s
  | MORTALITY =>
      Sale.fullCrates s' = Sale.fullCrates s /\ Sale.emptyCrates s' = Sale.emptyCrates s
  end.

(** The scalar fields of a sale are the same in [s] and [s']. *)
Definition saleFieldsKept (s s' : Sale.t) : Prop :=
  Sale.id s' = Sale.id s /\
  Sale.clientName s' = Sale.clientName s /\
  Sale.targetFullCrates s' = Sale.targetFullCrates s /\
  Sale.createdAt s' = Sale.createdAt s /\
  Sale.isCompleted s' = Sale.isCompleted s.


(** A parsed number that is zero or below. *)
Definition nonPositive (x : number) : Prop :=
  match x with
  | Finite q => q <= 0
  | NegInfinity => True
  | _ => False
  end.

Definition isFinite (x : number) : bool :=
  match x with Finite _ => true | _ => false end.

Local Open Scope string_scope.

Definition allDigits (s : string) : bool :=
  forallb isDigit (list_ascii_of_string s).

Definition noDigit (s : string) : bool :=
  forallb (fun c => negb (isDigit c)) (list_ascii_of_string s).

Definition startsWithDigit (s : string) : bool :=
  match s with String c _ => isDigit c | "" => false end.


(** The value of the numeral [ip] or [ip.fp]. *)
Definition numeral (ip fp : string) : Q :=
  (inject_Z (valueFrom 0 ip)
   + inject_Z (valueFrom 0 fp) / inject_Z (10 ^ Z.of_nat (String.length fp)))%Q.



(** Both selections are set and non-empty, so that the operations do not
    return at their first line. *)
Definition selected (st : AppState) (sid pid : string) : Prop :=
  currentSaleId st = Some sid /\ selectedProviderId st = Some pid /\
  truthy (Some sid) = true /\ truthy (Some pid) = true.

(** [st'] is [st] with [f] applied to every sale of the current provider. *)
Definition salesMapped (f : Sale.t -> Sale.t) (st st' : AppState) : Prop :=
  selectedProviderId st' = selectedProviderId st /\
  currentSaleId st' = currentSaleId st /\
  match currentProvider st with
  | Some p =>
      currentProvider st' = Some (Provider.with_sales p (map f (Provider.sales p)))
  | None => currentProvider st' = None
  end.

(** The invariant carried along a trace for the empty-crate bound. *)
Definition saleInvariant (s : Sale.t) : Prop :=
  positiveCrates s /\ emptiesWithinFull s.


(** ** Sample data

    The ledger of the specification's scenarios: a provider with a stock of
    100 crates of 9 birds and one sale with a target of 20 crates. *)

Definition sale0 : Sale.t :=
  Sale.mk "1001" "ana" 20 1001 [] [] [] false.

Definition provider0 : Provider.t :=
  Provider.mk "1000" "granja" None 100 9 1000 [sale0] true.

Definition app0 : AppState := mkApp [provider0] (Some "1000") (Some "1001").

(** Scenarios A to C: ten full crates, ten empty crates, two dead birds. *)
Definition scenarioC : list Action :=
  [ Add FULL 50 10 2001 2001;
    Add EMPTY 20 10 2002 2002;
    Add MORTALITY (12 # 10) 2 2003 2003 ].

Definition saleC : Sale.t :=
  Sale.mk "1001" "ana" 20 1001
    [WeightEntry.mk "2001" 50 10 2001]
    [WeightEntry.mk "2002" 20 10 2002]
    [MortalityEntry.mk "2003" 2 (12 # 10) 2003]
    false.

(** Scenario D: the sale of scenario C after it has been closed. *)
Definition lockedApp : AppState := run (scenarioC ++ [Toggle "1001"]) app0.


(** Scenario E: a provider with a stock of 5 crates and one sale with a
    target of 10. *)
Definition saleE : Sale.t := Sale.mk "5001" "luis" 10 5001 [] [] [] false.



(** Two sales that carry the same id, in a provider with a stock of 5. *)
Definition appTwins : AppState :=
  mkApp [Provider.mk "5000" "lote" None 5 9 5000 [saleE; saleE] true]
        (Some "5000") (Some "5001").

(** A rendering of the runtime text functions on the sample data: ASCII
    upper-casing, integers in decimal, a fixed date text. *)
Definition upperAscii (c : ascii) : ascii :=
  let n := N_of_ascii c in
  if ((97 <=? n) && (n <=? 122))%N then ascii_of_N (n - 32) else c.

Fixpoint toUpperCaseAscii (s : string) : string :=
  match s with
  | String c r => String (upperAscii c) (toUpperCaseAscii r)
  | "" => ""
  end.

Definition integerText (q : Q) : string :=
  let n := Qfloor q in
  if (n <? 0)%Z then "-" ++ decimal (- n) else decimal n.

Definition sampleDate (t : Z) : string := "1/1/2026, 10:00:00".

(** * Further code of the application

    The remaining operations of [App.tsx], the derived figures of its views,
    the panel of [components/WeighingPanel.tsx] and the figures of
    [services/gemini.ts].  The view shown ([setView]) and the modal flags
    are not part of [AppState] and are left out of the transitions. *)

Local Open Scope Q_scope.

(** ** Sales and providers ([handleCreateSale], [handleDeleteSale],
    [handleCreateProvider], [handleDeleteProvider]) *)

(** The two alerts of the creation forms. *)
Inductive FormAlert : Type :=
| IngreseNombreYCantidad
| IngreseNombreYTotal.

(** [x <= b] for a parsed number [x] and a finite bound [b]. *)
Definition number_le (x : number) (b : Q) : bool :=
  match x with
  | NaN => false
  | Infinity => false
  | NegInfinity => true
  | Finite q => Qle_bool q b
  end.

(** [handleCreateSale]: [name] is the text of the client field and [limit]
    is [parseInt] of the crate-limit field; [now] and [now'] are the two
    readings of [Date.now()].  As in [submitWeight], a limit that is not a
    rational has no image in the rational ledger. *)
Definition handleCreateSale (name : string) (limit : number) (now now' : Z)
  (st : AppState) : option (option FormAlert * AppState) :=
  match selectedProviderId st with
  | Some pid =>
      if negb (truthy (Some pid)) then Some (None, st)
      else if negb (truthy (Some name)) || isNaN limit || number_le limit 0
      then Some (Some IngreseNombreYCantidad, st)
      else
        match limit with
        | Finite limit =>
            let newSale :=
              Sale.mk (toString now) name limit now' [] [] [] false in
            Some (None,
                  setCurrentSaleId (Some (Sale.id newSale))
                    (handleUpdateProviderSales pid
                       (currentSales st ++ [newSale])%list st))
        | _ => None
        end
  | None => Some (None, st)
  end.

(** [handleDeleteSale]; [confirmed] is the answer to [window.confirm]. *)
Definition handleDeleteSale (saleId : string) (confirmed : bool)
  (st : AppState) : AppState :=
  match selectedProviderId st with
  | Some pid =>
      if negb (truthy (Some pid)) then st
      else if confirmed then
        let updatedSales :=
          filter (fun s => negb (streq (Sale.id s) saleId)) (currentSales st) in
        let st' := handleUpdateProviderSales pid updatedSales st in
        if is_id (currentSaleId st) saleId
        then setCurrentSaleId None st'
        else st'
      else st
  | None => st
  end.

(** The form state [newProvider], a [Partial<Provider>]. *)
Module NewProvider.
Record t : Type := mk
  { name : option string;
    logo : option string;
    initialFullCrates : option number;
    chickensPerCrate : option number }.
End NewProvider.

(** [!x] for an optional number: [undefined], [NaN] and [0]. *)
Definition number_falsy (x : option number) : bool :=
  match x with
  | None => true
  | Some NaN => true
  | Some (Finite q) => Qeq_bool q 0
  | Some _ => false
  end.

(** [Number(x) || 9] for the optional field [chickensPerCrate]. *)
Definition chickensOrDefault (x : option number) : number :=
  if number_falsy x then Finite 9
  else match x with Some n => n | None => Finite 9 end.

(** [handleCreateProvider]. *)
Definition handleCreateProvider (newProvider : NewProvider.t) (now now' : Z)
  (st : AppState) : option (option FormAlert * AppState) :=
  if negb (truthy (NewProvider.name newProvider))
     || number_falsy (NewProvider.initialFullCrates newProvider)
  then Some (Some IngreseNombreYTotal, st)
  else
    match NewProvider.name newProvider,
          NewProvider.initialFullCrates newProvider,
          chickensOrDefault (NewProvider.chickensPerCrate newProvider) with
    | Some name, Some (Finite stock), Finite chickens =>
        let provider :=
          Provider.mk (toString now) name (NewProvider.logo newProvider)
                      stock chickens now' [] true in
        Some (None,
              mkApp (providers st ++ [provider])%list
                    (selectedProviderId st) (currentSaleId st))
    | _, _, _ => None
    end.

(** [handleDeleteProvider]; [confirmed] is the answer to [window.confirm]. *)
Definition handleDeleteProvider (id : string) (confirmed : bool)
  (st : AppState) : AppState :=
  if confirmed then
    mkApp (filter (fun p => negb (streq (Provider.id p) id)) (providers st))
          (selectedProviderId st) (currentSaleId st)
  else st.

(** [setSelectedProviderId]. *)
Definition setSelectedProviderId (x : option string) (st : AppState) : AppState :=
  mkApp (providers st) x (currentSaleId st).

(** ** Persistence (the two effects of [App])

    The stored snapshot is the provider collection itself: the JSON text
    written and parsed back is not represented. *)

(** The effect on [providers]: the snapshot is rewritten only while the
    collection is not empty. *)
Definition persistProviders (ps : list Provider.t)
  (stored : option (list Provider.t)) : option (list Provider.t) :=
  if (0 <? Z.of_nat (List.length ps))%Z then Some ps else stored.

(** The effect at start-up: a stored snapshot replaces the initial empty
    collection. *)
Definition loadProviders (stored : option (list Provider.t)) : list Provider.t :=
  match stored with
  | Some ps => ps
  | None => []
  end.

(** ** The weighing panel ([WeighingPanel]) *)

Module PanelView.
(** An element of [entries: (WeightEntry | MortalityEntry)[]]. *)
Definition Entry : Type := (WeightEntry.t + MortalityEntry.t)%type.

Definition weightOf (e : Entry) : Q :=
  match e with
  | inl w => WeightEntry.weight w
  | inr m => MortalityEntry.weight m
  end.

Definition totalWeight (entries : list Entry) : Q :=
  reduce (fun sum e => sum + weightOf e) 0 entries.

Definition totalCount (entries : list Entry) : Q :=
  reduce (fun sum e =>
            match e with
            | inl w => sum + WeightEntry.crateCount w
            | inr m => sum + MortalityEntry.count m
            end) 0 entries.

(** [xs.map((x, idx) => f(x, idx))], from index [idx]. *)
Fixpoint mapFrom {A B : Type} (f : A -> nat -> B) (idx : nat) (xs : list A)
  : list B :=
  match xs with
  | [] => []
  | x :: r => f x idx :: mapFrom f (S idx) r
  end.

(** The rows of the list, newest first: each entry with the number
    [entries.length - idx] shown before it. *)
Definition listRows (entries : list Entry) : list (Z * Entry) :=
  mapFrom (fun entry idx =>
             ((Z.of_nat (List.length entries) - Z.of_nat idx)%Z, entry))
          0 (rev entries).
End PanelView.

(** ** The sale view ([renderSaleDetail]) and its scale button *)

(** src/src/App.tsx: the three panels are disabled on a locked sale and the
    full-crate panel is given [maxAllowed = targetFullCrates - fullCount].
    A submission of kind [type] typed into the view. *)
Definition saleDetailSubmit (type : EntryType) (w c : number) (now now' : Z)
  (st : AppState) : option (option Alert * AppState) :=
  match currentSaleId st, currentProvider st with
  | Some sid, Some currentProvider =>
      if negb (truthy (Some sid)) then Some (None, st)
      else
        match find (fun s => streq (Sale.id s) sid) (currentSales st) with
        | None => Some (None, st)
        | Some sale =>
            let m := calculateSaleMetrics sale
                       (Some (Provider.chickensPerCrate currentProvider)) in
            let isLocked := Sale.isCompleted sale in
            let maxAllowed :=
              match type with
              | FULL => Some (Sale.targetFullCrates sale - fullCount m)
              | _ => None
              end in
            submitWeight type isLocked maxAllowed w c now now' st
        end
  | _, _ => Some (None, st)
  end.

Module RootView.
(** src/App.tsx: the full-crate panel is disabled once the target is
    reached and the empty-crate panel is given
    [maxAllowed = fullCount - emptyCount]. *)
Definition saleDetailSubmit (type : EntryType) (w c : number) (now now' : Z)
  (st : AppState) : option (option Root.Alert * AppState) :=
  match currentProvider st with
  | Some currentProvider =>
      match find (fun s => is_id (currentSaleId st) (Sale.id s)) (currentSales st) with
      | None => Some (None, st)
      | Some activeSale =>
          let metrics := Root.calculateSaleMetrics activeSale in
          let limitReached :=
            Qle_bool (Sale.targetFullCrates activeSale) (Root.fullCount metrics) in
          let remainingEmptyAllowed :=
            Root.fullCount metrics - Root.emptyCount metrics in
          let disabled :=
            match type with
            | FULL =>
                Sale.isCompleted activeSale
                || (limitReached && negb (Sale.isCompleted activeSale))
            | _ => Sale.isCompleted activeSale
            end in
          let maxAllowed :=
            match type with
            | EMPTY => Some remainingEmptyAllowed
            | _ => None
            end in
          match WeighingPanel.handleSubmit disabled maxAllowed w c with
          | None => Some (None, st)
          | Some (Finite w', Finite c') =>
              Some (Root.addWeight type w' c' now now' st)
          | Some _ => None
          end
      end
  | None => Some (None, st)
  end.

End RootView.

(** ** Derived figures of the views *)

(** [Math.min(a, b)] on finite numbers. *)
Definition Math_min (a b : Q) : Q := Qmin a b.

(** [Math.max(...data, last)]: the largest of the arguments. *)
Definition Math_max_spread (data : list Q) (last : Q) : Q :=
  fold_right Qmax last data.

(** [renderDashboard] of src/src/App.tsx: the stock used and remaining of
    the current provider, and the progress bar of a sale card. *)
Module Dashboard.
Definition usedStock (st : AppState) : Q :=
  reduce (fun acc s =>
            acc + reduce (fun sum c => sum + WeightEntry.crateCount c) 0
                         (Sale.fullCrates s))
         0 (currentSales st).

Definition remainingStock (st : AppState) (currentProvider : Provider.t) : Q :=
  Provider.initialFullCrates currentProvider - usedStock st.

(** The width of the bar; a division by a target of zero leaves the
    rationals and gives [None]. *)
Definition progress (sale : Sale.t) (currentProvider : Provider.t) : option Q :=
  let m := calculateSaleMetrics sale
             (Some (Provider.chickensPerCrate currentProvider)) in
  if Qeq_bool (Sale.targetFullCrates sale) 0 then None
  else Some (Math_min 100 ((fullCount m / Sale.targetFullCrates sale) * 100)).
End Dashboard.

(** [renderSummary] of src/src/App.tsx: the totals of the daily report and
    the provider's average weight per bird. *)
Module DailyReport.
Record Totals : Type := mk
  { fw : Q; nw : Q; fc : Q; dc : Q; birds : Q }.

Definition totals (st : AppState) (currentProvider : Provider.t) : Totals :=
  reduce
    (fun acc sale =>
       let m := calculateSaleMetrics sale
                  (Some (Provider.chickensPerCrate currentProvider)) in
       mk (fw acc + fullWeight m) (nw acc + netWeight m)
          (fc acc + fullCount m) (dc acc + deadCount m)
          (birds acc + totalBirds m))
    (mk 0 0 0 0 0) (currentSales st).

Definition providerAvg (st : AppState) (currentProvider : Provider.t) : Q :=
  let totals := totals st currentProvider in
  if gt (birds totals) 0 then nw totals / birds totals else 0.
End DailyReport.

(** [renderWeightDetailModal]: the rows of the unified table, one cell per
    sequence, [undefined] where a sequence is shorter. *)
Definition detailRows (detailSale : Sale.t)
  : list (option WeightEntry.t * option WeightEntry.t * option MortalityEntry.t) :=
  let maxRows :=
    Nat.max (List.length (Sale.fullCrates detailSale))
            (Nat.max (List.length (Sale.emptyCrates detailSale))
                     (List.length (Sale.mortality detailSale))) in
  map (fun i =>
         (nth_error (Sale.fullCrates detailSale) i,
          nth_error (Sale.emptyCrates detailSale) i,
          nth_error (Sale.mortality detailSale) i))
      (seq 0 maxRows).

(** The cells of a column that hold an entry. *)
Definition present {A : Type} (cells : list (option A)) : list A :=
  flat_map (fun c => match c with Some a => [a] | None => [] end) cells.

(** ** Charts ([SimpleLineChart], [SimpleBarChart], src/src/App.tsx) *)

(** The points of the polyline; no chart is drawn for empty data. *)
Definition linePoints (data : list Q) : list (Q * Q) :=
  let max := Math_max_spread data 1 in
  let min := 0 in
  let height := 100 in
  let width := 100 in
  PanelView.mapFrom
    (fun val idx =>
       let x :=
         if Nat.eqb (List.length data) 1 then 50
         else (inject_Z (Z.of_nat idx)
               / (inject_Z (Z.of_nat (List.length data)) - 1)) * width in
       let y := height - ((val - min) / (max - min)) * height in
       (x, y))
    0 data.

(** The heights of the bars, in percent. *)
Definition barHeights (data : list Q) : list Q :=
  let max := Math_max_spread data 1 in
  map (fun val => (val / max) * 100) data.

(** [mortalityByProvider] of [renderGlobalSummary]: the dead birds of each
    provider, for the providers that have any. *)
Definition mortalityByProvider (providers : list Provider.t) : list (string * Q) :=
  filter (fun d => gt (snd d) 0)
    (map (fun p =>
            let totalDead :=
              reduce (fun acc s =>
                        acc + reduce (fun sum m => sum + MortalityEntry.count m) 0
                                     (Sale.mortality s))
                     0 (Provider.sales p) in
            (Provider.name p, totalDead))
         providers).

(** ** The figures sent to the report service ([generateDailyReport],
    services/gemini.ts)

    The figures computed for each sale by the callback of [sales.map]. *)
Module Gemini.
Record Figures : Type := mk
  { totalFullWeight : Q; totalFullCrates : Q;
    totalEmptyWeight : Q; totalEmptyCrates : Q;
    deadCount : Q; deadWeight : Q;
    avgTare : Q; totalTare : Q;
    netWeight : Q }.

Definition figures (s : Sale.t) : Figures :=
  let totalFullWeight :=
    reduce (fun acc c => acc + WeightEntry.weight c) 0 (Sale.fullCrates s) in
  let totalFullCrates :=
    reduce (fun acc c => acc + WeightEntry.crateCount c) 0 (Sale.fullCrates s) in
  let totalEmptyWeight :=
    reduce (fun acc c => acc + WeightEntry.weight c) 0 (Sale.emptyCrates s) in
  let totalEmptyCrates :=
    reduce (fun acc c => acc + WeightEntry.crateCount c) 0 (Sale.emptyCrates s) in
  let deadCount :=
    reduce (fun acc c => acc + MortalityEntry.count c) 0 (Sale.mortality s) in
  let deadWeight :=
    reduce (fun acc c => acc + MortalityEntry.weight c) 0 (Sale.mortality s) in
  let avgTare :=
    if gt totalEmptyCrates 0 then totalEmptyWeight / totalEmptyCrates else 5 # 2 in
  let totalTare := totalFullCrates * avgTare in
  let netWeight := totalFullWeight - totalTare - deadWeight in
  mk totalFullWeight totalFullCrates totalEmptyWeight totalEmptyCrates
     deadCount deadWeight avgTare totalTare netWeight.
End Gemini.

(** ** Further sample data *)

(** A sale whose tare and mortality outweigh its gross weight: one crate
    of 2 kg, no empty crate (default tare 2.5), one dead bird of 1 kg. *)
Definition saleLight : Sale.t :=
  Sale.mk "7001" "eva" 5 7001
    [WeightEntry.mk "7002" 2 1 7002] []
    [MortalityEntry.mk "7003" 1 1 7003] false.

(** The sale of [app0] once its target of twenty crates is reached. *)
Definition scenarioFull : list Action :=
  [ Add FULL 50 10 2001 2001; Add FULL 52 10 2002 2002 ].

Definition saleFull : Sale.t :=
  Sale.mk "1001" "ana" 20 1001
    [WeightEntry.mk "2001" 50 10 2001; WeightEntry.mk "2002" 52 10 2002]
    [] [] false.

(** ** Further notions *)


(** Every entry of the sale has a positive weight and a positive count. *)
Definition positiveEntries (s : Sale.t) : Prop :=
  Forall (fun e => 0 < WeightEntry.weight e /\ 0 < WeightEntry.crateCount e)
         (Sale.fullCrates s) /\
  Forall (fun e => 0 < WeightEntry.weight e /\ 0 < WeightEntry.crateCount e)
         (Sale.emptyCrates s) /\
  Forall (fun e => 0 < MortalityEntry.weight e /\ 0 < MortalityEntry.count e)
         (Sale.mortality s).


(** A point of a chart lies in the box of 100 by 100. *)
Definition inBox (pt : Q * Q) : Prop :=
  0 <= fst pt /\ fst pt <= 100 /\ 0 <= snd pt /\ snd pt <= 100.

(** * Properties *)

Local Open Scope Q_scope.

(** ** Comparisons and sums *)

Lemma gt_true (a b : Q) : gt a b = true <-> b < a.
Proof.
  unfold gt. rewrite negb_true_iff, <- not_true_iff_false, Qle_bool_iff.
  split; intro H; [apply Qnot_le_lt | apply Qlt_not_le]; exact H.
Qed.

Lemma gt_false (a b : Q) : gt a b = false <-> a <= b.
Proof.
  unfold gt. rewrite negb_false_iff. apply Qle_bool_iff.
Qed.

Lemma reduce_total {A : Type} (f : A -> Q) (l : list A) (a : Q) :
  reduce (fun acc e => acc + f e) a l == a + total f l.
Proof.
  unfold reduce. revert a.
  induction l as [|e l IH]; intro a; simpl.
  - ring.
  - rewrite IH. ring.
Qed.

Lemma reduce_total_0 {A : Type} (f : A -> Q) (l : list A) :
  reduce (fun acc e => acc + f e) 0 l == total f l.
Proof. rewrite reduce_total. ring. Qed.

Lemma total_app {A : Type} (f : A -> Q) (l r : list A) :
  total f (l ++ r) == total f l + total f r.
Proof.
  induction l as [|e l IH]; simpl.
  - ring.
  - rewrite IH. ring.
Qed.

Lemma total_ext {A : Type} (f g : A -> Q) (l : list A) :
  (forall e, f e == g e) -> total f l == total g l.
Proof.
  intro H. induction l as [|e l IH]; simpl.
  - reflexivity.
  - rewrite IH, H. reflexivity.
Qed.

Lemma crateSum_total (l : list WeightEntry.t) :
  crateSum l == total WeightEntry.crateCount l.
Proof. apply reduce_total_0. Qed.

Lemma totalSoldGlobal_soldAcross (sales : list Sale.t) :
  totalSoldGlobal sales == soldAcross sales.
Proof.
  unfold totalSoldGlobal, soldAcross.
  rewrite reduce_total_0. apply total_ext.
  intro s. apply crateSum_total.
Qed.

(** ** C1: the metrics engine *)

(** C1.  For every sale and every chickens-per-crate value (9 when the
    argument is omitted), [calculateSaleMetrics] returns the six sums over
    the entry lists, the average tare [emptyWeight / emptyCount] when
    [emptyCount > 0] and 2.5 otherwise, [totalTare = fullCount * avgTare],
    [netWeight = max 0 (fullWeight - totalTare - deadWeight)], which is
    never negative, [totalBirds = fullCount * chickensPerCrate - deadCount],
    and [avgWeightPerBird = netWeight / totalBirds] when [totalBirds > 0]
    and 0 otherwise. *)
Theorem calculateSaleMetrics_spec (sale : Sale.t) (chickensPerCrate : option Q) :
  let m := calculateSaleMetrics sale chickensPerCrate in
  let perCrate := match chickensPerCrate with Some c => c | None => 9 end in
  fullWeight m == total WeightEntry.weight (Sale.fullCrates sale) /\
  fullCount m == total WeightEntry.crateCount (Sale.fullCrates sale) /\
  emptyWeight m == total WeightEntry.weight (Sale.emptyCrates sale) /\
  emptyCount m == total WeightEntry.crateCount (Sale.emptyCrates sale) /\
  deadWeight m == total MortalityEntry.weight (Sale.mortality sale) /\
  deadCount m == total MortalityEntry.count (Sale.mortality sale) /\
  (0 < emptyCount m -> avgTare m == emptyWeight m / emptyCount m) /\
  (emptyCount m <= 0 -> avgTare m == 5 # 2) /\
  totalTare m == fullCount m * avgTare m /\
  netWeight m == Qmax 0 (fullWeight m - totalTare m - deadWeight m) /\
  0 <= netWeight m /\
  totalBirds m == fullCount m * perCrate - deadCount m /\
  (0 < totalBirds m -> avgWeightPerBird m == netWeight m / totalBirds m) /\
  (totalBirds m <= 0 -> avgWeightPerBird m == 0).
Proof.
  cbv zeta. unfold calculateSaleMetrics. cbn [fullWeight fullCount emptyWeight
    emptyCount avgTare totalTare deadCount deadWeight netWeight totalBirds
    avgWeightPerBird].
  repeat split; try apply reduce_total_0; try reflexivity.
  - intro H. apply gt_true in H. rewrite H. reflexivity.
  - intro H. apply gt_false in H. rewrite H. reflexivity.
  - apply Q.le_max_l.
  - intro H. apply gt_true in H. rewrite H. reflexivity.
  - intro H. apply gt_false in H. rewrite H. reflexivity.
Qed.

(** The metrics of scenario C: tare 2 kg per crate, 88 birds, and the two
    guarded divisions taken. *)
Lemma calculateSaleMetrics_spec_witness :
  let m := calculateSaleMetrics saleC (Some 9) in
  0 < emptyCount m /\ avgTare m == emptyWeight m / emptyCount m /\
  0 < totalBirds m /\ avgWeightPerBird m == netWeight m / totalBirds m /\
  netWeight m == 288 # 10.
Proof.
  cbv zeta.
  destruct (calculateSaleMetrics_spec saleC (Some 9))
    as (_ & _ & _ & _ & _ & _ & Htare & _ & _ & _ & _ & _ & Havg & _).
  assert (He : 0 < emptyCount (calculateSaleMetrics saleC (Some 9)))
    by (vm_compute; reflexivity).
  assert (Hb : 0 < totalBirds (calculateSaleMetrics saleC (Some 9)))
    by (vm_compute; reflexivity).
  split; [exact He|]. split; [exact (Htare He)|].
  split; [exact Hb|]. split; [exact (Havg Hb)|].
  vm_compute. reflexivity.
Defined.

(** The version of src/App.tsx computes the same nine figures. *)
Lemma root_calculateSaleMetrics_agrees (sale : Sale.t) (c : option Q) :
  let m := calculateSaleMetrics sale c in
  Root.calculateSaleMetrics sale =
  Root.mkMetrics (fullWeight m) (fullCount m) (emptyWeight m) (emptyCount m)
                 (avgTare m) (totalTare m) (deadCount m) (deadWeight m)
                 (netWeight m).
Proof. reflexivity. Qed.

(** ** The current provider under [handleUpdateProviderSales] *)

Lemma sale_eta (s : Sale.t) :
  Sale.mk (Sale.id s) (Sale.clientName s) (Sale.targetFullCrates s)
          (Sale.createdAt s) (Sale.fullCrates s) (Sale.emptyCrates s)
          (Sale.mortality s) (Sale.isCompleted s) = s.
Proof. destruct s; reflexivity. Qed.


Lemma currentProvider_update (st : AppState) (pid : string)
      (l : list Sale.t) (p : Provider.t) :
  selectedProviderId st = Some pid ->
  currentProvider st = Some p ->
  currentProvider (handleUpdateProviderSales pid l st)
  = Some (Provider.with_sales p l).
Proof.
  unfold currentProvider, handleUpdateProviderSales. cbn [providers selectedProviderId].
  intros -> . cbn [is_id].
  induction (providers st) as [|q qs IH]; cbn [find map]; intro H.
  - discriminate.
  - destruct (streq (Provider.id q) pid) eqn:E.
    + cbn [Provider.with_sales Provider.id]. rewrite E.
      injection H as ->. reflexivity.
    + rewrite E. auto.
Qed.

Lemma update_without_provider (st : AppState) (pid : string) (l : list Sale.t) :
  selectedProviderId st = Some pid ->
  currentProvider st = None ->
  handleUpdateProviderSales pid l st = st.
Proof.
  unfold currentProvider, handleUpdateProviderSales.
  destruct st as [ps sel cur]. cbn [providers selectedProviderId currentSaleId].
  intros -> H. f_equal. cbn [is_id] in H.
  induction ps as [|q qs IH]; cbn [find map] in *.
  - reflexivity.
  - destruct (streq (Provider.id q) pid) eqn:E.
    + discriminate.
    + f_equal. auto.
Qed.


Lemma salesMapped_update (f : Sale.t -> Sale.t) (st : AppState) (pid : string) :
  selectedProviderId st = Some pid ->
  salesMapped f st (handleUpdateProviderSales pid (map f (currentSales st)) st).
Proof.
  intro Hsel. unfold salesMapped. split; [reflexivity|]. split; [reflexivity|].
  unfold currentSales.
  destruct (currentProvider st) as [p|] eqn:Hp.
  - apply currentProvider_update; assumption.
  - rewrite update_without_provider; assumption.
Qed.

Lemma salesMapped_sales (f : Sale.t -> Sale.t) (st st' : AppState) :
  salesMapped f st st' -> currentSales st' = map f (currentSales st).
Proof.
  intros (_ & _ & H). unfold currentSales.
  destruct (currentProvider st) as [p|]; rewrite H; reflexivity.
Qed.

Lemma salesMapped_ext (f g : Sale.t -> Sale.t) (st st' : AppState) :
  (forall s, In s (currentSales st) -> f s = g s) ->
  salesMapped f st st' -> salesMapped g st st'.
Proof.
  intros Hfg (H1 & H2 & H3). repeat split; try assumption.
  unfold currentSales in Hfg.
  destruct (currentProvider st) as [p|]; [|assumption].
  rewrite H3. do 2 f_equal. apply map_ext_in. exact Hfg.
Qed.

Lemma selected_mapped (f : Sale.t -> Sale.t) (st st' : AppState) (sid pid : string) :
  salesMapped f st st' -> selected st sid pid -> selected st' sid pid.
Proof.
  intros (H1 & H2 & _) (A & B & C & D).
  unfold selected. rewrite H1, H2. auto.
Qed.

(** ** The three operations as maps over the current sales *)

Lemma toggleSaleLock_mapped (saleId : string) (st : AppState) (pid : string) :
  selectedProviderId st = Some pid -> truthy (Some pid) = true ->
  salesMapped (toggled saleId) st (toggleSaleLock saleId st).
Proof.
  intros Hsel Ht. unfold toggleSaleLock. rewrite Hsel, Ht. cbn [negb].
  apply (salesMapped_update (toggled saleId)). exact Hsel.
Qed.


Lemma deleteEntry_selected (type : EntryType) (id : string) (st : AppState)
      (sid pid : string) :
  selected st sid pid ->
  salesMapped (removeEntry type sid id) st (deleteEntry type id st).
Proof.
  intros (Hs & Hp & Ts & Tp). unfold deleteEntry. rewrite Hs, Hp, Ts, Tp.
  cbn [negb orb]. apply (salesMapped_update (removeEntry type sid id)). exact Hp.
Qed.

Lemma deleteEntry_cases (type : EntryType) (id : string) (st : AppState) :
  (exists sid pid, selected st sid pid) \/ deleteEntry type id st = st.
Proof.
  unfold deleteEntry, selected.
  destruct (currentSaleId st) as [sid|]; [|right; reflexivity].
  destruct (selectedProviderId st) as [pid|]; [|right; reflexivity].
  destruct (truthy (Some sid)) eqn:Ts; [|right; reflexivity].
  destruct (truthy (Some pid)) eqn:Tp; [|right; reflexivity].
  left. exists sid, pid. auto.
Qed.

Lemma addWeight_cases (type : EntryType) (weight count : Q) (now now' : Z)
      (st : AppState) :
  snd (addWeight type weight count now now' st) = st \/
  exists sid pid p cs,
    selected st sid pid /\
    currentProvider st = Some p /\
    find (fun s => streq (Sale.id s) sid) (Provider.sales p) = Some cs /\
    (type = FULL ->
     totalSoldGlobal (Provider.sales p) + count <= Provider.initialFullCrates p /\
     crateSum (Sale.fullCrates cs) + count <= Sale.targetFullCrates cs) /\
    (type = EMPTY ->
     crateSum (Sale.emptyCrates cs) + count <= crateSum (Sale.fullCrates cs)) /\
    fst (addWeight type weight count now now' st) = None /\
    salesMapped (appendEntry type sid (toString now) weight count now') st
                (snd (addWeight type weight count now now' st)).
Proof.
  unfold addWeight, selected.
  destruct (currentSaleId st) as [sid|] eqn:Hs; [|left; reflexivity].
  destruct (selectedProviderId st) as [pid|] eqn:Hp; [|left; reflexivity].
  destruct (currentProvider st) as [p|] eqn:Hc; [|left; reflexivity].
  destruct (truthy (Some sid)) eqn:Ts; [|left; reflexivity].
  destruct (truthy (Some pid)) eqn:Tp; [|left; reflexivity].
  cbn [negb orb].
  assert (Hsales : currentSales st = Provider.sales p)
    by (unfold currentSales; rewrite Hc; reflexivity).
  rewrite Hsales.
  destruct (find (fun s => streq (Sale.id s) sid) (Provider.sales p))
    as [cs|] eqn:Hf; [|left; reflexivity].
  destruct type.
  - destruct (gt (totalSoldGlobal (Provider.sales p) + count)
                 (Provider.initialFullCrates p)) eqn:G1; [left; reflexivity|].
    destruct (gt (crateSum (Sale.fullCrates cs) + count)
                 (Sale.targetFullCrates cs)) eqn:G2; [left; reflexivity|].
    right. exists sid, pid, p, cs. cbn [fst snd].
    apply gt_false in G1, G2.
    repeat split; auto; try discriminate.
    all: rewrite <- Hsales;
      apply (salesMapped_update (appendEntry FULL sid (toString now) weight count now'));
      exact Hp.
  - destruct (gt (crateSum (Sale.emptyCrates cs) + count)
                 (crateSum (Sale.fullCrates cs))) eqn:G; [left; reflexivity|].
    right. exists sid, pid, p, cs. cbn [fst snd].
    apply gt_false in G.
    repeat split; auto; try discriminate.
    all: rewrite <- Hsales;
      apply (salesMapped_update (appendEntry EMPTY sid (toString now) weight count now'));
      exact Hp.
  - right. exists sid, pid, p, cs. cbn [fst snd].
    repeat split; auto; try discriminate.
    all: rewrite <- Hsales;
      apply (salesMapped_update
               (appendEntry MORTALITY sid (toString now) weight count now'));
      exact Hp.
Qed.

(** Both versions of [addWeight] lead to the same state. *)
Lemma root_addWeight_state (type : EntryType) (weight count : Q) (now now' : Z)
      (st : AppState) :
  snd (Root.addWeight type weight count now now' st)
  = snd (addWeight type weight count now now' st).
Proof.
  unfold Root.addWeight, addWeight.
  destruct (currentSaleId st); [|reflexivity].
  destruct (selectedProviderId st); [|reflexivity].
  destruct (currentProvider st); [|reflexivity].
  destruct (negb _ || negb _)%bool; [reflexivity|].
  destruct (find _ _); [|reflexivity].
  destruct type; repeat (destruct (gt _ _)); reflexivity.
Qed.

(** What the three map bodies leave alone. *)






Lemma removeEntry_frame (type : EntryType) (sid id : string) (s : Sale.t) :
  saleFieldsKept s (removeEntry type sid id s) /\
  otherSequencesKept type s (removeEntry type sid id s).
Proof.
  unfold removeEntry, saleFieldsKept, otherSequencesKept.
  destruct (streq _ _), (Sale.isCompleted s) eqn:E, type; cbn; auto 10.
Qed.


(** ** C9: frame of additions and deletions *)







(** ** C4: locking *)






Lemma truthy_some (x : option string) :
  truthy x = true -> exists s, x = Some s /\ truthy (Some s) = true.
Proof.
  destruct x as [s|]; [|discriminate]. intro H. exists s. auto.
Qed.



(** ** C6: an addition undone by a deletion *)

Lemma filter_all {A : Type} (f : A -> bool) (l : list A) :
  forallb f l = true -> filter f l = l.
Proof.
  induction l as [|a l IH]; cbn; [reflexivity|].
  intro H. apply andb_prop in H. destruct H as (Ha & Hl).
  rewrite Ha, IH by exact Hl. reflexivity.
Qed.







(** ** C2: the provider stock *)















(** ** C3: empty crates against full crates *)



Lemma total_nonneg {A : Type} (f : A -> Q) (l : list A) :
  Forall (fun e => 0 < f e) l -> 0 <= total f l.
Proof.
  induction 1 as [|e l He Hl IH]; cbn; lra.
Qed.













(** ** C5: the input guard of the weighing form *)

Lemma number_gt_nonPositive (x : number) :
  nonPositive x -> number_gt x 0 = false.
Proof.
  destruct x; cbn; try tauto. apply gt_false.
Qed.

(** C5, as amended.  For every kind, every state and every setting of the
    panel, the weighing form does not call [addWeight] when the parsed
    weight or count is [NaN], or is zero or below (minus infinity
    included): no entry is appended and the state, hence the sale, is
    unchanged. *)
Theorem handleSubmit_rejects_invalid (type : EntryType) (disabled : bool)
        (maxAllowed : option Q) (w c : number) (now now' : Z) (st : AppState) :
  isNaN w = true \/ isNaN c = true \/ nonPositive w \/ nonPositive c ->
  WeighingPanel.handleSubmit disabled maxAllowed w c = None /\
  submitWeight type disabled maxAllowed w c now now' st = Some (None, st).
Proof.
  intro H.
  assert (E : WeighingPanel.handleSubmit disabled maxAllowed w c = None).
  { unfold WeighingPanel.handleSubmit.
    destruct disabled; [reflexivity|].
    destruct (WeighingPanel.isOverLimit maxAllowed c); [reflexivity|].
    destruct H as [H | [H | [H | H]]].
    - rewrite H. reflexivity.
    - rewrite H. destruct (isNaN w); reflexivity.
    - rewrite (number_gt_nonPositive w H).
      destruct (isNaN w), (isNaN c); reflexivity.
    - rewrite (number_gt_nonPositive c H).
      destruct (isNaN w), (isNaN c), (number_gt w 0); reflexivity. }
  split; [exact E|]. unfold submitWeight. rewrite E. reflexivity.
Qed.

(** A count of zero and an unparsable weight are both turned away. *)
Lemma handleSubmit_rejects_invalid_witness :
  (WeighingPanel.handleSubmit false None (Finite 50) (Finite 0) = None /\
   submitWeight FULL false None (Finite 50) (Finite 0) 2001 2001 app0
   = Some (None, app0)) /\
  (WeighingPanel.handleSubmit false None NaN (Finite 5) = None /\
   submitWeight FULL false None NaN (Finite 5) 2001 2001 app0 = Some (None, app0)).
Proof.
  split.
  - apply (handleSubmit_rejects_invalid FULL false None (Finite 50) (Finite 0)
             2001 2001 app0).
    right. right. right. cbn. lra.
  - apply (handleSubmit_rejects_invalid FULL false None NaN (Finite 5)
             2001 2001 app0).
    left. reflexivity.
Defined.

(** A weight of plus infinity is not finite, yet the form hands it to
    [addWeight]: [!isNaN(w)] and [w > 0] both hold. *)
Lemma infinite_weight_is_submitted :
  ~ (forall (disabled : bool) (maxAllowed : option Q) (w c : number),
        nonPositive w \/ nonPositive c \/ isFinite w = false \/ isFinite c = false ->
        WeighingPanel.handleSubmit disabled maxAllowed w c = None).
Proof.
  intro H.
  specialize (H false None Infinity (Finite 5)).
  assert (C : nonPositive Infinity \/ nonPositive (Finite 5) \/
              isFinite Infinity = false \/ isFinite (Finite 5) = false)
    by (right; right; left; reflexivity).
  apply H in C. discriminate C.
Qed.

(** [addWeight] itself does not look at the sign of its arguments: the
    guard lives in the form only. *)
Example addWeight_takes_any_number :
  currentSales (snd (addWeight MORTALITY (-1) 0 2001 2001 app0))
  = [pushEntry MORTALITY (toString 2001) (-1) 0 2001 sale0].
Proof. reflexivity. Qed.

(** ** C8: the ticket preview *)

Local Open Scope string_scope.

Section PreviewOfReports.

Variable toLocaleString : Z -> string.
Variable toUpperCase : string -> string.
Variable String_ : Q -> string.

(** C8 fails on the code.  The preview removes the bytes ESC and GS only,
    so the parameter bytes of every directive stay in the displayed text:
    the preview of every per-client ticket begins with a line break, the
    letter [a] and the byte 1 (the rest of [CENTER]) before the title, and
    is never the text of the ticket's human-readable lines; the preview of
    every provider summary begins in the same way. *)
Theorem preview_keeps_directive_bytes (sale : Sale.t) (provider : Provider.t)
        (now : Z) (st : AppState) :
  (exists rest,
      preview (generateTicket toLocaleString toUpperCase String_ sale provider)
      = String "010" (String "a" (String "001" ("POLLO CONTROL PRO" ++ rest)))) /\
  preview (generateTicket toLocaleString toUpperCase String_ sale provider)
  <> ticketLines toLocaleString toUpperCase String_ sale provider /\
  match currentProvider st with
  | Some _ =>
      exists rest,
        preview (generateProviderSummary toLocaleString toUpperCase String_ now st)
        = String "010" (String "a" (String "001" ("RESUMEN DE PROVEEDOR" ++ rest)))
  | None =>
      preview (generateProviderSummary toLocaleString toUpperCase String_ now st) = ""
  end.
Proof.
  split; [|split].
  - unfold generateTicket, preview. eexists. cbn. reflexivity.
  - unfold generateTicket, ticketLines, preview. cbn. discriminate.
  - unfold generateProviderSummary.
    destruct (currentProvider st) as [p|]; [|reflexivity].
    unfold preview. eexists. cbn. reflexivity.
Qed.

End PreviewOfReports.

(** The preview of the ticket of scenario C, up to the end of its title. *)
Example preview_of_sample_ticket :
  substring 0 20
    (preview (generateTicket sampleDate toUpperCaseAscii integerText saleC provider0))
  = String "010" (String "a" (String "001" "POLLO CONTROL PRO")).
Proof. vm_compute. reflexivity. Qed.

(** The same stripping applied to the stream sent to the printer would
    leave the parameter bytes of [INIT] and [CUT] as well. *)
Example preview_of_printer_stream :
  preview (printerData "") = "@" ++ nl ++ nl ++ nl ++ "VA" ++ String "000" "".
Proof. reflexivity. Qed.

(** ** Numerals: printing and reading back *)

Local Open Scope Z_scope.

Lemma digit_cases (d : Z) :
  0 <= d < 10 ->
  d = 0 \/ d = 1 \/ d = 2 \/ d = 3 \/ d = 4 \/
  d = 5 \/ d = 6 \/ d = 7 \/ d = 8 \/ d = 9.
Proof. lia. Qed.

Lemma isDigit_digitChar (d : Z) : 0 <= d < 10 -> isDigit (digitChar d) = true.
Proof.
  intro H. destruct (digit_cases d H) as [-> | [-> | [-> | [-> | [-> |
    [-> | [-> | [-> | [-> | ->]]]]]]]]]; reflexivity.
Qed.

Lemma digitValue_digitChar (d : Z) : 0 <= d < 10 -> digitValue (digitChar d) = d.
Proof.
  intro H. destruct (digit_cases d H) as [-> | [-> | [-> | [-> | [-> |
    [-> | [-> | [-> | [-> | ->]]]]]]]]]; reflexivity.
Qed.

Lemma valueFrom_app (s t : string) (acc : Z) :
  valueFrom acc (s ++ t) = valueFrom (valueFrom acc s) t.
Proof.
  revert acc. induction s as [|c s IH]; intro acc; cbn; [reflexivity|apply IH].
Qed.

Lemma valueFrom_snoc (s : string) (d : Z) :
  0 <= d < 10 ->
  valueFrom 0 (s ++ String (digitChar d) "") = 10 * valueFrom 0 s + d.
Proof.
  intro H. rewrite valueFrom_app. cbn. rewrite digitValue_digitChar by exact H.
  reflexivity.
Qed.

Lemma allDigits_app (s t : string) :
  allDigits (s ++ t) = (allDigits s && allDigits t)%bool.
Proof.
  unfold allDigits.
  induction s as [|c s IH]; cbn; [reflexivity|].
  rewrite IH. apply andb_assoc.
Qed.

Lemma length_app (s t : string) :
  String.length (s ++ t) = (String.length s + String.length t)%nat.
Proof.
  induction s as [|c s IH]; cbn; [reflexivity|]. rewrite IH. reflexivity.
Qed.

Lemma mod10_digit (n : Z) : 0 <= n mod 10 < 10.
Proof. apply Z.mod_pos_bound. lia. Qed.

Lemma padded_allDigits (w : nat) (n : Z) : allDigits (padded w n) = true.
Proof.
  revert n. induction w as [|w IH]; intro n; cbn [padded]; [reflexivity|].
  rewrite allDigits_app, IH. unfold allDigits. cbn.
  rewrite isDigit_digitChar by apply mod10_digit. reflexivity.
Qed.

Lemma padded_length (w : nat) (n : Z) : String.length (padded w n) = w.
Proof.
  revert n. induction w as [|w IH]; intro n; cbn [padded]; [reflexivity|].
  rewrite length_app, IH. cbn. lia.
Qed.

Lemma padded_value (w : nat) (n : Z) :
  0 <= n -> valueFrom 0 (padded w n) = n mod 10 ^ Z.of_nat w.
Proof.
  revert n. induction w as [|w IH]; intros n Hn.
  - cbn. rewrite Z.mod_1_r. reflexivity.
  - cbn [padded]. rewrite valueFrom_snoc by apply mod10_digit.
    rewrite IH by (apply Z.div_pos; lia).
    rewrite Nat2Z.inj_succ, Z.pow_succ_r by lia.
    rewrite Z.rem_mul_r by lia. lia.
Qed.

Lemma digits_allDigits (fuel : nat) (n : Z) :
  0 <= n -> allDigits (digits fuel n) = true.
Proof.
  revert n. induction fuel as [|f IH]; intros n Hn; cbn [digits]; [reflexivity|].
  destruct (Z.ltb_spec n 10).
  - unfold allDigits. cbn. rewrite isDigit_digitChar by lia. reflexivity.
  - rewrite allDigits_app, IH by (apply Z.div_pos; lia).
    unfold allDigits. cbn.
    rewrite isDigit_digitChar by apply mod10_digit. reflexivity.
Qed.

Lemma digits_value (fuel : nat) (n : Z) :
  0 <= n < 10 ^ Z.of_nat fuel -> valueFrom 0 (digits fuel n) = n.
Proof.
  revert n. induction fuel as [|f IH]; intros n Hn.
  - change (10 ^ Z.of_nat 0) with 1 in Hn. cbn. lia.
  - cbn [digits]. destruct (Z.ltb_spec n 10).
    + cbn. rewrite digitValue_digitChar by lia. reflexivity.
    + rewrite valueFrom_snoc by apply mod10_digit.
      rewrite IH.
      * pose proof (Z.div_mod n 10). lia.
      * rewrite Nat2Z.inj_succ, Z.pow_succ_r in Hn by lia.
        split; [apply Z.div_pos; lia|].
        apply Z.div_lt_upper_bound; lia.
Qed.

Lemma digits_nonempty (fuel : nat) (n : Z) : digits (S fuel) n <> "".
Proof.
  cbn [digits]. destruct (n <? 10); [discriminate|].
  destruct (digits fuel (n / 10)); discriminate.
Qed.

Lemma decimal_fuel (n : Z) :
  0 <= n -> n < 10 ^ Z.of_nat (S (Z.to_nat (Z.log2 n))).
Proof.
  intro Hn.
  rewrite Nat2Z.inj_succ, Z2Nat.id by apply Z.log2_nonneg.
  destruct (Z.eq_dec n 0) as [-> | Hne].
  - cbn. lia.
  - assert (H2 : n < 2 ^ Z.succ (Z.log2 n)) by (apply Z.log2_spec; lia).
    assert (H10 : 2 ^ Z.succ (Z.log2 n) <= 10 ^ Z.succ (Z.log2 n)).
    { apply Z.pow_le_mono_l. lia. }
    lia.
Qed.

Lemma decimal_value (n : Z) : 0 <= n -> valueFrom 0 (decimal n) = n.
Proof.
  intro Hn. unfold decimal. apply digits_value.
  split; [exact Hn|apply decimal_fuel, Hn].
Qed.

Lemma decimal_allDigits (n : Z) : 0 <= n -> allDigits (decimal n) = true.
Proof. intro Hn. apply digits_allDigits, Hn. Qed.

Lemma decimal_nonempty (n : Z) : decimal n <> "".
Proof. apply digits_nonempty. Qed.

(** The digit prefix found by [spanDigits]. *)

Lemma spanDigits_nondigit (rest : string) :
  startsWithDigit rest = false -> spanDigits rest = ("", rest).
Proof.
  destruct rest as [|c r]; cbn; [reflexivity|]. intros ->. reflexivity.
Qed.

Lemma spanDigits_app (ds rest : string) :
  allDigits ds = true ->
  startsWithDigit rest = false ->
  spanDigits (ds ++ rest) = (ds, rest).
Proof.
  unfold allDigits. intros Hds Hrest.
  induction ds as [|c ds IH]; cbn in *.
  - apply spanDigits_nondigit, Hrest.
  - apply andb_prop in Hds. destruct Hds as (Hc & Hds).
    rewrite Hc, IH by exact Hds. reflexivity.
Qed.

Lemma append_empty_r (s : string) : s ++ "" = s.
Proof. induction s as [|c s IH]; cbn; [reflexivity|]. rewrite IH. reflexivity. Qed.

Lemma spanDigits_all (ds : string) :
  allDigits ds = true -> spanDigits ds = (ds, "").
Proof.
  intro H. rewrite <- (append_empty_r ds) at 1.
  apply spanDigits_app; [exact H|reflexivity].
Qed.

(** [parseFloat] reads a numeral with a fraction as its value. *)
Lemma parseFloat_numeral (ip fp post : string) :
  allDigits ip = true -> ip <> "" ->
  allDigits fp = true ->
  startsWithDigit post = false ->
  parseFloat (ip ++ String "." (fp ++ post)) = Finite (numeral ip fp).
Proof.
  intros Hip Hne Hfp Hpost. unfold parseFloat.
  rewrite spanDigits_app by (auto; reflexivity).
  destruct ip as [|c ip]; [contradiction|].
  cbn [Ascii.eqb Bool.eqb]. rewrite spanDigits_app by assumption. reflexivity.
Qed.



(** ** C10: the simulated reading *)

Local Open Scope Q_scope.

Lemma Qfloor_nonneg (y : Q) : 0 <= y -> (0 <= Qfloor y)%Z.
Proof.
  intro H. change 0%Z with (Qfloor 0). apply Qfloor_resp_le. exact H.
Qed.

Lemma quotient_remainder_Q (n p : Z) :
  (0 < p)%Z ->
  inject_Z (n / p) + inject_Z (n mod p) / inject_Z p == inject_Z n / inject_Z p.
Proof.
  intro Hp.
  assert (Hp' : ~ inject_Z p == 0).
  { intro E. apply (Qlt_irrefl 0). rewrite <- E at 2.
    change 0 with (inject_Z 0). rewrite <- Zlt_Qlt. exact Hp. }
  rewrite (Z.div_mod n p) at 3 by lia.
  rewrite inject_Z_plus, inject_Z_mult. field. exact Hp'.
Qed.

(** [toFixed] with at least one decimal, read back by [parseFloat], is the
    rounded value [n / 10^f]. *)
Lemma parseFloat_toFixed (k : nat) (x : Q) :
  0 <= x ->
  let p := (10 ^ Z.of_nat (S k))%Z in
  let n := Qfloor (x * inject_Z p + (1 # 2)) in
  exists q,
    parseFloat (toFixed (S k) x) = Finite q /\ q == inject_Z n / inject_Z p.
Proof.
  intros Hx p n.
  assert (Hp : (0 < p)%Z) by (apply Z.pow_pos_nonneg; lia).
  assert (En : Qfloor (Qabs x * inject_Z p + (1 # 2)) = n).
  { unfold n. apply Qfloor_comp. rewrite (Qabs_pos x Hx). reflexivity. }
  assert (Hn : (0 <= n)%Z).
  { apply Qfloor_nonneg.
    assert (0 <= inject_Z p).
    { change 0 with (inject_Z 0). rewrite <- Zle_Qle. lia. }
    nra. }
  assert (Hform : toFixed (S k) x
                  = (decimal (n / p)
                     ++ String "." (padded (S k) (n mod p) ++ ""))%string).
  { unfold toFixed. fold p. rewrite En.
    assert (G : gt 0 x = false) by (apply gt_false; exact Hx).
    rewrite G, append_empty_r. reflexivity. }
  rewrite Hform.
  exists (numeral (decimal (n / p)) (padded (S k) (n mod p))).
  split.
  - apply parseFloat_numeral.
    + apply decimal_allDigits, Z.div_pos; lia.
    + apply decimal_nonempty.
    + apply padded_allDigits.
    + reflexivity.
  - unfold numeral.
    rewrite decimal_value by (apply Z.div_pos; lia).
    rewrite padded_value by (apply Z.mod_pos_bound; lia).
    rewrite padded_length. fold p.
    rewrite Z.mod_mod by lia.
    apply quotient_remainder_Q. exact Hp.
Qed.

Lemma simulatedWeight_bounds (random : Q) :
  0 <= random -> random < 1 ->
  exists q,
    simulatedWeight random = Finite q /\
    10 <= q /\ q <= 30 /\
    exists n : Z, q == inject_Z n / 100.
Proof.
  intros H0 H1. unfold simulatedWeight.
  assert (Hx : 0 <= random * 20 + 10) by lra.
  destruct (parseFloat_toFixed 1 (random * 20 + 10) Hx) as (q & Eq & Hq).
  change (10 ^ Z.of_nat 2)%Z with 100%Z in Hq.
  change (inject_Z 100) with 100 in Hq.
  set (y := (random * 20 + 10) * 100 + (1 # 2)) in *.
  pose proof (Qfloor_le y) as Hlo.
  pose proof (Qlt_floor y) as Hhi.
  assert (Hn1 : (1000 <= Qfloor y)%Z).
  { assert (inject_Z 1000 < inject_Z (Qfloor y + 1)).
    { change (inject_Z 1000) with 1000. unfold y in *. lra. }
    rewrite <- Zlt_Qlt in H. lia. }
  assert (Hn2 : (Qfloor y <= 3000)%Z).
  { assert (inject_Z (Qfloor y) < inject_Z 3001).
    { change (inject_Z 3001) with 3001. unfold y in *. lra. }
    rewrite <- Zlt_Qlt in H. lia. }
  assert (Q1 : 1000 <= inject_Z (Qfloor y)).
  { change 1000 with (inject_Z 1000). rewrite <- Zle_Qle. exact Hn1. }
  assert (Q2 : inject_Z (Qfloor y) <= 3000).
  { change 3000 with (inject_Z 3000). rewrite <- Zle_Qle. exact Hn2. }
  exists q. split; [exact Eq|].
  split; [|split].
  - rewrite Hq. unfold Qdiv. change (/ 100) with (1 # 100). lra.
  - rewrite Hq. unfold Qdiv. change (/ 100) with (1 # 100). lra.
  - exists (Qfloor y). exact Hq.
Qed.

(** C10, as amended.  When no device payload is available (no connected
    characteristic, or no value received yet), for every draw [random] of
    [Math.random()] in [0, 1) the reading is a number between 10 and 30,
    both ends included, with at most two decimals. *)
Theorem simulated_reading_range (random : Q) :
  0 <= random -> random < 1 ->
  readScaleWeight None random = simulatedWeight random /\
  readScaleWeight (Some None) random = simulatedWeight random /\
  exists q,
    simulatedWeight random = Finite q /\
    10 <= q /\ q <= 30 /\
    exists n : Z, q == inject_Z n / 100.
Proof.
  intros H0 H1. split; [reflexivity|]. split; [reflexivity|].
  apply simulatedWeight_bounds; assumption.
Qed.

(** The draw 0.5 gives the reading 20.00. *)
Lemma simulated_reading_range_witness :
  0 <= 1 # 2 /\ 1 # 2 < 1 /\
  readScaleWeight None (1 # 2) = simulatedWeight (1 # 2) /\
  readScaleWeight (Some None) (1 # 2) = simulatedWeight (1 # 2) /\
  exists q,
    simulatedWeight (1 # 2) = Finite q /\
    10 <= q /\ q <= 30 /\
    exists n : Z, q == inject_Z n / 100.
Proof.
  assert (H0 : 0 <= 1 # 2) by (vm_compute; discriminate).
  assert (H1 : 1 # 2 < 1) by (vm_compute; reflexivity).
  split; [exact H0|]. split; [exact H1|].
  exact (simulated_reading_range (1 # 2) H0 H1).
Defined.

(** The draw 0.9999 gives [29.998], which [toFixed(2)] rounds to
    ["30.00"]: the reading 30 is reached, so the range is not [10, 30). *)
Lemma simulated_reading_reaches_30 :
  ~ (forall random : Q,
        0 <= random -> random < 1 ->
        exists q,
          readScaleWeight None random = Finite q /\ 10 <= q /\ q < 30).
Proof.
  intro H.
  destruct (H (9999 # 10000)) as (q & E & _ & Hlt).
  - vm_compute. discriminate.
  - vm_compute. reflexivity.
  - vm_compute in E. injection E as <-.
    vm_compute in Hlt. discriminate.
Qed.

(** ** C7: the scale reading *)

Local Open Scope string_scope.







Local Open Scope Z_scope.



Local Open Scope Q_scope.




Local Open Scope string_scope.




(** ** The scenarios of the specification *)

Local Open Scope Q_scope.

(** Scenario A: ten crates are accepted, twelve more exceed the client's
    target of twenty and the ledger still shows ten. *)
Example scenario_A :
  currentSales (snd (addWeight FULL 50 10 2001 2001 app0))
  = [pushEntry FULL "2001" 50 10 2001 sale0] /\
  addWeight FULL 55 12 2002 2002 (snd (addWeight FULL 50 10 2001 2001 app0))
  = (Some LimiteExcedido, snd (addWeight FULL 50 10 2001 2001 app0)).
Proof. split; vm_compute; reflexivity. Qed.

(** Scenarios B and C: tare 2.0 per crate, total tare 20, 88 birds, net
    weight 28.8 and 0.327 kg per bird on the ticket. *)
Example scenario_C :
  let m := calculateSaleMetrics saleC (Some 9) in
  avgTare m == 2 /\ totalTare m == 20 /\ totalBirds m == 88 /\
  netWeight m == 288 # 10 /\
  toFixed 3 (avgWeightPerBird m) = "0.327"%string.
Proof. cbv zeta. repeat split; vm_compute; reflexivity. Qed.

(** Scenario D: the closed sale turns a full-crate addition away without
    any change; reopened, the same addition is appended. *)
Example scenario_D :
  snd (addWeight FULL 5 1 3000 3000 lockedApp) = lockedApp /\
  currentSales
    (snd (addWeight FULL 5 1 3000 3000 (toggleSaleLock "1001" lockedApp)))
  = [pushEntry FULL "3000" 5 1 3000 saleC].
Proof. split; vm_compute; reflexivity. Qed.

(** [addWeight] checks the first sale that carries the selected id and
    then maps over every sale that carries it; pairwise distinct ids are
    what makes the sale checked and the sale changed the same one. *)
Example addition_reaches_every_sale_with_the_id :
  currentSales (snd (addWeight FULL 10 3 6001 6001 appTwins))
  = [pushEntry FULL "6001" 10 3 6001 saleE; pushEntry FULL "6001" 10 3 6001 saleE].
Proof. vm_compute. reflexivity. Qed.

(** * Further properties *)

Local Open Scope Q_scope.

(** ** Creating a sale *)



Lemma number_le_nonPositive (x : number) :
  nonPositive x -> number_le x 0 = true.
Proof.
  destruct x; cbn; try tauto. apply Qle_bool_iff.
Qed.

(** X1.  [handleCreateSale] changes nothing when no provider is selected,
    when the client name is empty, or when the parsed crate limit is [NaN]
    or not above zero. *)
Theorem handleCreateSale_rejects (name : string) (limit : number)
        (now now' : Z) (st : AppState) :
  truthy (selectedProviderId st) = false \/ name = ""%string \/
  isNaN limit = true \/ nonPositive limit ->
  option_map snd (handleCreateSale name limit now now' st) = Some st.
Proof.
  intro H. unfold handleCreateSale.
  destruct (selectedProviderId st) as [pid|] eqn:Hp; [|reflexivity].
  destruct (truthy (Some pid)) eqn:Tp; [|reflexivity].
  cbn [negb].
  destruct H as [H | [H | [H | H]]].
  - discriminate H.
  - subst name. reflexivity.
  - rewrite H. rewrite orb_true_r. reflexivity.
  - rewrite (number_le_nonPositive limit H). rewrite orb_true_r. reflexivity.
Qed.

Lemma handleCreateSale_rejects_witness :
  option_map snd (handleCreateSale "" (Finite 20) 3000 3000 app0) = Some app0 /\
  option_map snd (handleCreateSale "rosa" (Finite 0) 3000 3000 app0) = Some app0 /\
  option_map snd (handleCreateSale "rosa" NaN 3000 3000 app0) = Some app0.
Proof.
  split; [|split].
  - apply handleCreateSale_rejects. right. left. reflexivity.
  - apply handleCreateSale_rejects. right. right. right. cbn. lra.
  - apply handleCreateSale_rejects. right. right. left. reflexivity.
Defined.

Lemma currentProvider_setCurrentSaleId (x : option string) (st : AppState) :
  currentProvider (setCurrentSaleId x st) = currentProvider st.
Proof. reflexivity. Qed.

Lemma currentProvider_selected (st : AppState) (p : Provider.t) :
  currentProvider st = Some p ->
  selectedProviderId st = Some (Provider.id p).
Proof.
  unfold currentProvider. intro H. apply find_some in H. destruct H as (_ & H).
  destruct (selectedProviderId st) as [pid|]; cbn in H; [|discriminate].
  unfold streq in H. apply String.eqb_eq in H. rewrite H. reflexivity.
Qed.

Lemma soldAcross_app (l r : list Sale.t) :
  soldAcross (l ++ r)%list == soldAcross l + soldAcross r.
Proof. apply total_app. Qed.

(** The sale that [handleCreateSale] builds. *)
Lemma newSale_invariant (id name : string) (limit : Q) (ts : Z) :
  saleInvariant (Sale.mk id name limit ts [] [] [] false).
Proof.
  split; [split; constructor|]. unfold emptiesWithinFull. cbn. lra.
Qed.

(** X2.  With a provider selected, a non-empty name and a limit above
    zero, [handleCreateSale] appends one open sale without entries, named
    and limited as asked and identified by the time stamp, after the sales
    of the current provider, which stay as they are, and makes it the
    current sale.  The provider's stock bound and the sale invariants
    carry over, and so do pairwise distinct ids when the new id is not in
    use. *)
Theorem handleCreateSale_appends (name : string) (limit : Q) (now now' : Z)
        (st : AppState) (p : Provider.t) :
  currentProvider st = Some p ->
  truthy (selectedProviderId st) = true ->
  name <> ""%string ->
  0 < limit ->
  let newSale := Sale.mk (toString now) name limit now' [] [] [] false in
  let p' := Provider.with_sales p (Provider.sales p ++ [newSale])%list in
  exists st',
    handleCreateSale name (Finite limit) now now' st = Some (None, st') /\
    currentProvider st' = Some p' /\
    currentSaleId st' = Some (toString now) /\
    selectedProviderId st' = selectedProviderId st /\
    (stockRespected p -> stockRespected p') /\
    (Forall saleInvariant (Provider.sales p) ->
     Forall saleInvariant (Provider.sales p')) /\
    (distinctSaleIds (Provider.sales p) ->
     ~ In (toString now) (map Sale.id (Provider.sales p)) ->
     distinctSaleIds (Provider.sales p')).
Proof.
  intros Hp Ht Hname Hlim newSale p'.
  pose proof (currentProvider_selected st p Hp) as Hsel.
  rewrite Hsel in Ht.
  assert (Hn : truthy (Some name) = true).
  { cbn. unfold streq. destruct (String.eqb_spec name ""%string); [contradiction|].
    reflexivity. }
  assert (Hl : number_le (Finite limit) 0 = false).
  { cbn. apply not_true_iff_false. rewrite Qle_bool_iff. lra. }
  unfold handleCreateSale. rewrite Hsel, Ht, Hn, Hl. cbn [negb orb isNaN].
  eexists. split; [reflexivity|].
  rewrite currentProvider_setCurrentSaleId.
  assert (Hcs : currentSales st = Provider.sales p)
    by (unfold currentSales; rewrite Hp; reflexivity).
  rewrite Hcs.
  split; [apply currentProvider_update; assumption|].
  split; [reflexivity|]. split; [exact Hsel|].
  split; [|split].
  - unfold stockRespected, p'. cbn [Provider.with_sales Provider.sales
      Provider.initialFullCrates].
    intro H. rewrite soldAcross_app.
    assert (E : soldAcross [newSale] == 0) by (vm_compute; reflexivity).
    rewrite E. lra.
  - intro H. unfold p'. cbn [Provider.with_sales Provider.sales].
    apply Forall_app. split; [exact H|].
    constructor; [apply newSale_invariant|constructor].
  - intros Hd Hfresh. unfold distinctSaleIds, p' in *.
    cbn [Provider.with_sales Provider.sales].
    rewrite map_app. cbn [map Sale.id].
    apply NoDup_app; [exact Hd | constructor; [intros []|constructor] |].
    intros x Hx [<- | []]. contradiction.
Qed.

Lemma handleCreateSale_appends_witness :
  exists st',
    handleCreateSale "rosa" (Finite 15) 3000 3001 app0 = Some (None, st') /\
    currentProvider st'
    = Some (Provider.with_sales provider0
              (Provider.sales provider0
               ++ [Sale.mk (toString 3000) "rosa" 15 3001 [] [] [] false])%list) /\
    currentSaleId st' = Some (toString 3000).
Proof.
  destruct (handleCreateSale_appends "rosa" 15 3000 3001 app0 provider0)
    as (st' & H1 & H2 & H3 & _).
  - reflexivity.
  - reflexivity.
  - discriminate.
  - reflexivity.
  - exists st'. auto.
Defined.





(** ** Operations without a current provider *)

(** X4.  When no provider matches the selection (none selected, or the
    selected one deleted), both versions of [addWeight], [deleteEntry] and
    [toggleSaleLock] leave the whole state as it is, and
    [handleDeleteSale] leaves the provider collection as it is. *)
Theorem no_provider_no_change (st : AppState) :
  currentProvider st = None ->
  forall (type : EntryType) (w c : Q) (t t' : Z) (id saleId : string)
         (confirmed : bool),
    snd (addWeight type w c t t' st) = st /\
    snd (Root.addWeight type w c t t' st) = st /\
    deleteEntry type id st = st /\
    toggleSaleLock saleId st = st /\
    providers (handleDeleteSale saleId confirmed st) = providers st.
Proof.
  intros Hc type w c t t' id saleId confirmed.
  rewrite root_addWeight_state.
  assert (Hu : forall pid l, selectedProviderId st = Some pid ->
                             handleUpdateProviderSales pid l st = st).
  { intros pid l Hp. apply update_without_provider; assumption. }
  split; [|split; [|split; [|split]]].
  - unfold addWeight. rewrite Hc.
    destruct (currentSaleId st); [|reflexivity].
    destruct (selectedProviderId st); reflexivity.
  - unfold addWeight. rewrite Hc.
    destruct (currentSaleId st); [|reflexivity].
    destruct (selectedProviderId st); reflexivity.
  - unfold deleteEntry.
    destruct (currentSaleId st) as [sid|]; [|reflexivity].
    destruct (selectedProviderId st) as [pid|] eqn:Hp; [|reflexivity].
    destruct (negb _ || negb _)%bool; [reflexivity|]. apply Hu. reflexivity.
  - unfold toggleSaleLock.
    destruct (selectedProviderId st) as [pid|] eqn:Hp; [|reflexivity].
    destruct (negb _); [reflexivity|]. apply Hu. reflexivity.
  - unfold handleDeleteSale.
    destruct (selectedProviderId st) as [pid|] eqn:Hp; [|reflexivity].
    destruct (negb _); [reflexivity|].
    destruct confirmed; [|reflexivity].
    rewrite Hu by reflexivity.
    destruct (is_id _ _); reflexivity.
Qed.

Lemma no_provider_no_change_witness :
  snd (addWeight FULL 50 10 2001 2001 (setSelectedProviderId None app0))
  = setSelectedProviderId None app0 /\
  toggleSaleLock "1001" (setSelectedProviderId (Some "4000") app0)
  = setSelectedProviderId (Some "4000") app0.
Proof.
  split.
  - apply (no_provider_no_change (setSelectedProviderId None app0) eq_refl
             FULL 50 10 2001%Z 2001%Z ""%string ""%string true).
  - apply (no_provider_no_change (setSelectedProviderId (Some "4000"%string) app0)
             eq_refl FULL 50 10 2001%Z 2001%Z ""%string "1001"%string true).
Defined.

(** ** Deleting a sale *)

Lemma truthy_selected (st : AppState) :
  truthy (selectedProviderId st) = true ->
  exists pid, selectedProviderId st = Some pid /\ truthy (Some pid) = true.
Proof. apply truthy_some. Qed.

Lemma handleDeleteSale_provider (saleId : string) (st : AppState) (p : Provider.t) :
  currentProvider st = Some p ->
  truthy (selectedProviderId st) = true ->
  currentProvider (handleDeleteSale saleId true st)
  = Some (Provider.with_sales p
            (filter (fun s => negb (streq (Sale.id s) saleId)) (Provider.sales p))).
Proof.
  intros Hp Ht. destruct (truthy_selected st Ht) as (pid & Hsel & Tp).
  unfold handleDeleteSale. rewrite Hsel, Tp. cbn [negb].
  assert (Hcs : currentSales st = Provider.sales p)
    by (unfold currentSales; rewrite Hp; reflexivity).
  rewrite Hcs.
  destruct (is_id (currentSaleId st) saleId);
    [rewrite currentProvider_setCurrentSaleId|];
    apply currentProvider_update; assumption.
Qed.

(** X5.  A confirmed [handleDeleteSale] removes from the current provider
    exactly the sales that carry the id, keeping the others in their
    order; when the deleted sale was the current one the selection is
    cleared, after which additions and entry deletions change nothing.
    Without confirmation nothing happens. *)
Theorem handleDeleteSale_removes (saleId : string) (st : AppState)
        (p : Provider.t) :
  currentProvider st = Some p ->
  truthy (selectedProviderId st) = true ->
  let st' := handleDeleteSale saleId true st in
  handleDeleteSale saleId false st = st /\
  currentSales st'
  = filter (fun s => negb (streq (Sale.id s) saleId)) (Provider.sales p) /\
  (forall s, In s (currentSales st') <-> In s (Provider.sales p) /\ Sale.id s <> saleId) /\
  (currentSaleId st = Some saleId ->
   currentSaleId st' = None /\
   forall type w c t t' id,
     snd (addWeight type w c t t' st') = st' /\
     snd (Root.addWeight type w c t t' st') = st' /\
     deleteEntry type id st' = st') /\
  (currentSaleId st <> Some saleId -> currentSaleId st' = currentSaleId st).
Proof.
  intros Hp Ht st'.
  pose proof (handleDeleteSale_provider saleId st p Hp Ht) as Hp'. fold st' in Hp'.
  destruct (truthy_selected st Ht) as (pid & Hsel & Tp).
  assert (Hsales : currentSales st'
                   = filter (fun s => negb (streq (Sale.id s) saleId))
                            (Provider.sales p)).
  { unfold currentSales. rewrite Hp'. reflexivity. }
  assert (Hcur : currentSaleId st'
                 = if is_id (currentSaleId st) saleId then None else currentSaleId st).
  { unfold st', handleDeleteSale. rewrite Hsel, Tp. cbn [negb].
    destruct (is_id (currentSaleId st) saleId); reflexivity. }
  split; [|split; [|split; [|split]]].
  - unfold handleDeleteSale. rewrite Hsel, Tp. reflexivity.
  - exact Hsales.
  - intro s. rewrite Hsales, filter_In, negb_true_iff.
    unfold streq. rewrite String.eqb_neq. tauto.
  - intro Hc. rewrite Hc in Hcur. cbn in Hcur. unfold streq in Hcur.
    rewrite String.eqb_refl in Hcur. split; [exact Hcur|].
    intros type w c t t' id. rewrite root_addWeight_state.
    unfold addWeight, deleteEntry. rewrite Hcur. auto.
  - intro Hne. rewrite Hcur.
    destruct (currentSaleId st) as [x|]; [|reflexivity]. cbn. unfold streq.
    destruct (String.eqb_spec saleId x) as [-> | _]; [contradiction|reflexivity].
Qed.

Lemma handleDeleteSale_removes_witness :
  currentSales (handleDeleteSale "1001" true (run scenarioC app0)) = [] /\
  currentSaleId (handleDeleteSale "1001" true (run scenarioC app0)) = None /\
  handleDeleteSale "1001" false (run scenarioC app0) = run scenarioC app0.
Proof.
  assert (Hp : currentProvider (run scenarioC app0)
               = Some (Provider.with_sales provider0 [saleC]))
    by (vm_compute; reflexivity).
  destruct (handleDeleteSale_removes "1001" (run scenarioC app0) _ Hp eq_refl)
    as (H1 & H2 & _ & H4 & _).
  split; [rewrite H2; reflexivity|]. split; [|exact H1].
  apply H4. reflexivity.
Defined.

Lemma soldAcross_filter_out (l : list Sale.t) (s : Sale.t) :
  distinctSaleIds l -> In s l ->
  soldAcross (filter (fun x => negb (streq (Sale.id x) (Sale.id s))) l)
  == soldAcross l - fullCountOf s.
Proof.
  unfold distinctSaleIds, soldAcross.
  induction l as [|x l IH]; cbn [map filter total]; intros Hnd Hin; [destruct Hin|].
  inversion Hnd as [|y ys Hnotin Hnd' E]; subst.
  unfold streq at 1.
  destruct (String.eqb_spec (Sale.id x) (Sale.id s)) as [Heq | Hne]; cbn [negb].
  - assert (Hx : x = s).
    { destruct Hin as [E | Hin]; [exact E|].
      exfalso. apply Hnotin. rewrite Heq. apply in_map, Hin. }
    subst x.
    assert (Hall : filter (fun x => negb (streq (Sale.id x) (Sale.id s))) l = l).
    { apply filter_all. apply forallb_forall. intros y Hy.
      apply negb_true_iff. unfold streq. apply String.eqb_neq. intro E.
      apply Hnotin. rewrite <- E. apply in_map, Hy. }
    rewrite Hall. ring.
  - destruct Hin as [-> | Hin]; [contradiction Hne; reflexivity|].
    cbn [total]. rewrite (IH Hnd' Hin). ring.
Qed.

Lemma usedStock_soldAcross (st : AppState) :
  Dashboard.usedStock st == soldAcross (currentSales st).
Proof. apply totalSoldGlobal_soldAcross. Qed.

(** X6.  With pairwise distinct sale ids, deleting a sale of the current
    provider gives its crates back to the stock: the crates sold across
    the remaining sales are those sold before less the full crates of the
    deleted sale, so the remaining stock of the dashboard grows by that
    count; the remaining ids are still pairwise distinct. *)
Theorem handleDeleteSale_frees_stock (s : Sale.t) (st : AppState)
        (p : Provider.t) :
  currentProvider st = Some p ->
  truthy (selectedProviderId st) = true ->
  distinctSaleIds (Provider.sales p) ->
  In s (Provider.sales p) ->
  let st' := handleDeleteSale (Sale.id s) true st in
  exists p',
    currentProvider st' = Some p' /\
    Provider.initialFullCrates p' = Provider.initialFullCrates p /\
    soldAcross (Provider.sales p') == soldAcross (Provider.sales p) - fullCountOf s /\
    Dashboard.remainingStock st' p'
    == Dashboard.remainingStock st p + fullCountOf s /\
    distinctSaleIds (Provider.sales p').
Proof.
  intros Hp Ht Hd Hin st'.
  pose proof (handleDeleteSale_provider (Sale.id s) st p Hp Ht) as Hp'.
  fold st' in Hp'.
  eexists. split; [exact Hp'|]. split; [reflexivity|].
  cbn [Provider.with_sales Provider.sales].
  pose proof (soldAcross_filter_out _ s Hd Hin) as Hsold.
  split; [exact Hsold|]. split.
  - unfold Dashboard.remainingStock.
    rewrite !usedStock_soldAcross. unfold currentSales. rewrite Hp, Hp'.
    cbn [Provider.with_sales Provider.sales Provider.initialFullCrates].
    rewrite Hsold. ring.
  - unfold distinctSaleIds in *.
    clear - Hd. induction (Provider.sales p) as [|x l IH]; cbn; [constructor|].
    inversion Hd as [|y ys Hnotin Hnd' E]; subst.
    destruct (negb _); [|auto]. cbn. constructor; [|auto].
    intro H. apply Hnotin. apply in_map_iff in H. destruct H as (z & Ez & Hz).
    apply filter_In in Hz. rewrite <- Ez. apply in_map, Hz.
Qed.

Lemma handleDeleteSale_frees_stock_witness :
  exists p',
    currentProvider (handleDeleteSale (Sale.id saleC) true (run scenarioC app0))
    = Some p' /\
    soldAcross (Provider.sales p')
    == soldAcross [saleC] - fullCountOf saleC.
Proof.
  assert (Hp : currentProvider (run scenarioC app0)
               = Some (Provider.with_sales provider0 [saleC]))
    by (vm_compute; reflexivity).
  assert (Hd : distinctSaleIds
                 (Provider.sales (Provider.with_sales provider0 [saleC]))).
  { unfold distinctSaleIds. cbn. constructor; [intros []|constructor]. }
  destruct (handleDeleteSale_frees_stock saleC (run scenarioC app0) _ Hp eq_refl Hd)
    as (p' & H1 & _ & H3 & _).
  - left. reflexivity.
  - exists p'. split; [exact H1|exact H3].
Defined.

(** ** Creating and deleting providers *)

Lemma find_app_some {A : Type} (f : A -> bool) (l r : list A) (a : A) :
  find f l = Some a -> find f (l ++ r)%list = Some a.
Proof.
  induction l as [|x l IH]; cbn; [discriminate|].
  destruct (f x); auto.
Qed.

(** X7.  [handleCreateProvider] changes nothing, and raises its alert,
    when the name is missing or empty or the stock is missing, [NaN] or
    zero.  Otherwise, for a finite stock (of either sign), it appends one
    active provider without sales, with that name, logo and stock,
    identified by the time stamp, after the existing providers, which stay
    as they are; the birds per crate are the number given, or 9 when it is
    missing, [NaN] or zero.  The selections and an existing current
    provider are unchanged, and the new provider respects the stock bound
    exactly when its stock is not negative. *)
Theorem handleCreateProvider_spec (np : NewProvider.t) (now now' : Z)
        (st : AppState) :
  (truthy (NewProvider.name np) = false \/
   number_falsy (NewProvider.initialFullCrates np) = true ->
   handleCreateProvider np now now' st = Some (Some IngreseNombreYTotal, st)) /\
  (forall (name : string) (stock chickens : Q),
      NewProvider.name np = Some name -> name <> ""%string ->
      NewProvider.initialFullCrates np = Some (Finite stock) -> ~ stock == 0 ->
      chickensOrDefault (NewProvider.chickensPerCrate np) = Finite chickens ->
      let provider :=
        Provider.mk (toString now) name (NewProvider.logo np) stock chickens
                    now' [] true in
      handleCreateProvider np now now' st
      = Some (None,
              mkApp (providers st ++ [provider])%list
                    (selectedProviderId st) (currentSaleId st)) /\
      (number_falsy (NewProvider.chickensPerCrate np) = true -> chickens = 9) /\
      (forall p, currentProvider st = Some p ->
                 currentProvider
                   (mkApp (providers st ++ [provider])%list
                          (selectedProviderId st) (currentSaleId st)) = Some p) /\
      (stockRespected provider <-> 0 <= stock)).
Proof.
  split.
  - intro H. unfold handleCreateProvider.
    destruct H as [H | H]; rewrite H; [|rewrite orb_true_r]; reflexivity.
  - intros name stock chickens Hn Hne Hs Hnz Hc provider.
    assert (Tn : truthy (Some name) = true).
    { cbn. unfold streq.
      destruct (String.eqb_spec name ""%string); [contradiction|reflexivity]. }
    assert (Fs : number_falsy (Some (Finite stock)) = false).
    { cbn. apply not_true_iff_false. rewrite Qeq_bool_iff. exact Hnz. }
    split; [|split; [|split]].
    + unfold handleCreateProvider. rewrite Hn, Hs, Tn, Fs, Hc. reflexivity.
    + intro Hf. unfold chickensOrDefault in Hc. rewrite Hf in Hc.
      injection Hc as <-. reflexivity.
    + intros p Hp. unfold currentProvider in *. cbn [providers selectedProviderId].
      apply find_app_some. exact Hp.
    + unfold stockRespected, provider, soldAcross. cbn. reflexivity.
Qed.

Lemma handleCreateProvider_spec_witness :
  handleCreateProvider (NewProvider.mk (Some "") None (Some (Finite 100)) None)
                       9000 9000 app0
  = Some (Some IngreseNombreYTotal, app0) /\
  handleCreateProvider
    (NewProvider.mk (Some "sur") None (Some (Finite 40)) (Some (Finite 0)))
    9000 9001 app0
  = Some (None,
          mkApp (providers app0
                 ++ [Provider.mk (toString 9000) "sur" None 40 9 9001 [] true])%list
                (selectedProviderId app0) (currentSaleId app0)).
Proof.
  split.
  - apply (proj1 (handleCreateProvider_spec
                    (NewProvider.mk (Some ""%string) None (Some (Finite 100)) None)
                    9000 9000 app0)).
    left. reflexivity.
  - apply (proj2 (handleCreateProvider_spec
                    (NewProvider.mk (Some "sur"%string) None (Some (Finite 40))
                                    (Some (Finite 0)))
                    9000 9001 app0) "sur"%string 40 9);
      try reflexivity; discriminate.
Defined.

Lemma find_filter_none {A : Type} (f g : A -> bool) (l : list A) :
  (forall x, f x = true -> g x = false) -> find f (filter g l) = None.
Proof.
  intro H. induction l as [|x l IH]; cbn; [reflexivity|].
  destruct (g x) eqn:G; [|exact IH]. cbn.
  destruct (f x) eqn:F; [|exact IH].
  rewrite (H x F) in G. discriminate.
Qed.

Lemma find_filter_some {A : Type} (f g : A -> bool) (l : list A) (a : A) :
  (forall x, f x = true -> g x = true) ->
  find f l = Some a -> find f (filter g l) = Some a.
Proof.
  intros H. induction l as [|x l IH]; cbn; [discriminate|].
  destruct (f x) eqn:F.
  - rewrite (H x F). cbn. rewrite F. auto.
  - destruct (g x); cbn; [rewrite F|]; exact IH.
Qed.

(** X8.  A confirmed [handleDeleteProvider] removes exactly the providers
    that carry the id and keeps the others as they are; the selections
    are untouched.  When the selected provider is the one deleted there is
    no current provider and no current sale list any more; a current
    provider with another id stays the current provider.  Without
    confirmation nothing happens. *)
Theorem handleDeleteProvider_spec (id : string) (st : AppState) :
  let st' := handleDeleteProvider id true st in
  handleDeleteProvider id false st = st /\
  selectedProviderId st' = selectedProviderId st /\
  currentSaleId st' = currentSaleId st /\
  (forall q, In q (providers st') <-> In q (providers st) /\ Provider.id q <> id) /\
  (selectedProviderId st = Some id ->
   currentProvider st' = None /\ currentSales st' = []) /\
  (forall p, currentProvider st = Some p -> Provider.id p <> id ->
             currentProvider st' = Some p).
Proof.
  intro st'. split; [reflexivity|]. split; [reflexivity|]. split; [reflexivity|].
  split; [|split].
  - intro q. unfold st', handleDeleteProvider. cbn [providers].
    rewrite filter_In, negb_true_iff. unfold streq. rewrite String.eqb_neq. tauto.
  - intro Hsel.
    assert (Hnone : currentProvider st' = None).
    { unfold currentProvider, st', handleDeleteProvider.
      cbn [providers selectedProviderId]. rewrite Hsel. cbn [is_id].
      apply find_filter_none. intros x Hx. rewrite Hx. reflexivity. }
    split; [exact Hnone|]. unfold currentSales. rewrite Hnone. reflexivity.
  - intros p Hp Hne.
    pose proof (currentProvider_selected st p Hp) as Hsel.
    unfold currentProvider in *. unfold st', handleDeleteProvider.
    cbn [providers selectedProviderId]. rewrite Hsel in *. cbn [is_id] in *.
    apply find_filter_some; [|exact Hp].
    intros x Hx. unfold streq in *. apply String.eqb_eq in Hx.
    apply negb_true_iff, String.eqb_neq. rewrite Hx. exact Hne.
Qed.

Lemma handleDeleteProvider_spec_witness :
  currentProvider (handleDeleteProvider "1000" true app0) = None /\
  currentSales (handleDeleteProvider "1000" true app0) = [] /\
  currentProvider (handleDeleteProvider "5000" true app0) = Some provider0.
Proof.
  destruct (handleDeleteProvider_spec "1000" app0) as (_ & _ & _ & _ & H & _).
  destruct (handleDeleteProvider_spec "5000" app0) as (_ & _ & _ & _ & _ & K).
  destruct (H eq_refl) as (H1 & H2).
  split; [exact H1|]. split; [exact H2|].
  apply K; [reflexivity|discriminate].
Defined.

(** ** Persistence *)

(** X9.  The snapshot is never overwritten with an empty collection: when
    a deletion removes every provider, the stored snapshot stays the one
    written before the deletion, and loading it at the next start-up gives
    the providers back as they were before the deletion. *)
Theorem last_provider_deletion_not_persisted (id : string) (st : AppState)
        (stored : option (list Provider.t)) :
  providers st <> [] ->
  (forall q, In q (providers st) -> Provider.id q = id) ->
  let before := persistProviders (providers st) stored in
  let st' := handleDeleteProvider id true st in
  providers st' = [] /\
  persistProviders (providers st') before = Some (providers st) /\
  loadProviders (persistProviders (providers st') before) = providers st.
Proof.
  intros Hne Hall before st'.
  assert (Hempty : providers st' = []).
  { unfold st', handleDeleteProvider. cbn [providers].
    induction (providers st) as [|q l IH]; [reflexivity|]. cbn.
    unfold streq at 1. rewrite (Hall q (or_introl eq_refl)), String.eqb_refl. cbn.
    destruct l as [|q' l']; [reflexivity|].
    apply IH; [discriminate|]. intros x Hx. apply Hall. right. exact Hx. }
  assert (Hbefore : before = Some (providers st)).
  { unfold before, persistProviders.
    destruct (providers st) as [|q l]; [contradiction|]. reflexivity. }
  split; [exact Hempty|]. rewrite Hempty. cbn. rewrite Hbefore. auto.
Qed.

Lemma last_provider_deletion_not_persisted_witness :
  providers (handleDeleteProvider "1000" true app0) = [] /\
  loadProviders
    (persistProviders (providers (handleDeleteProvider "1000" true app0))
       (persistProviders (providers app0) None))
  = providers app0.
Proof.
  destruct (last_provider_deletion_not_persisted "1000" app0 None) as (H1 & _ & H3).
  - discriminate.
  - intros q [<- | []]. reflexivity.
  - split; [exact H1|exact H3].
Defined.

(** ** Locking twice, deleting twice *)

Lemma toggled_twice (saleId : string) (s : Sale.t) :
  toggled saleId (toggled saleId s) = s.
Proof.
  unfold toggled at 2. destruct (streq (Sale.id s) saleId) eqn:E.
  - unfold toggled. destruct s as [i n t c f e m b]. cbn in *. rewrite E.
    rewrite negb_involutive. reflexivity.
  - unfold toggled. rewrite E. reflexivity.
Qed.

(** X10.  Toggling the lock of a sale twice gives back the sales of the
    current provider exactly as they were. *)
Theorem toggleSaleLock_twice (saleId : string) (st : AppState) :
  currentSales (toggleSaleLock saleId (toggleSaleLock saleId st)) = currentSales st.
Proof.
  destruct (truthy (selectedProviderId st)) eqn:Ht.
  - destruct (truthy_selected st Ht) as (pid & Hsel & Tp).
    pose proof (toggleSaleLock_mapped saleId st pid Hsel Tp) as Hm.
    assert (Hsel1 : selectedProviderId (toggleSaleLock saleId st) = Some pid).
    { destruct Hm as (H & _). rewrite H. exact Hsel. }
    pose proof (toggleSaleLock_mapped saleId _ pid Hsel1 Tp) as Hm1.
    rewrite (salesMapped_sales _ _ _ Hm1), (salesMapped_sales _ _ _ Hm).
    rewrite map_map. rewrite <- (map_id (currentSales st)) at 2.
    apply map_ext. apply toggled_twice.
  - assert (E : toggleSaleLock saleId st = st).
    { unfold toggleSaleLock.
      destruct (selectedProviderId st) as [pid|]; [|reflexivity].
      rewrite Ht. reflexivity. }
    rewrite E, E. reflexivity.
Qed.

Lemma filter_twice {A : Type} (f : A -> bool) (l : list A) :
  filter f (filter f l) = filter f l.
Proof.
  apply filter_all. apply forallb_forall. intros x Hx.
  apply filter_In in Hx. apply Hx.
Qed.

Lemma forallb_filter {A : Type} (f : A -> bool) (l : list A) :
  forallb f (filter f l) = true.
Proof.
  apply forallb_forall. intros x Hx. apply filter_In in Hx. apply Hx.
Qed.

Lemma dropEntry_twice (type : EntryType) (id : string) (s : Sale.t) :
  dropEntry type id (dropEntry type id s) = dropEntry type id s.
Proof.
  destruct s, type; cbn; rewrite filter_twice; reflexivity.
Qed.

Lemma removeEntry_twice (type : EntryType) (sid id : string) (s : Sale.t) :
  removeEntry type sid id (removeEntry type sid id s) = removeEntry type sid id s.
Proof.
  unfold removeEntry at 2.
  destruct (streq (Sale.id s) sid) eqn:E.
  - destruct (Sale.isCompleted s) eqn:L.
    + unfold removeEntry. rewrite E, L. reflexivity.
    + unfold removeEntry.
      replace (Sale.id (dropEntry type id s)) with (Sale.id s)
        by (destruct type; reflexivity).
      replace (Sale.isCompleted (dropEntry type id s)) with (Sale.isCompleted s)
        by (destruct type; reflexivity).
      rewrite E, L. apply dropEntry_twice.
  - unfold removeEntry. rewrite E. reflexivity.
Qed.

Lemma dropEntry_isFresh (type : EntryType) (id : string) (s : Sale.t) :
  isFresh type id (dropEntry type id s) = true.
Proof.
  destruct type; cbn; apply forallb_filter.
Qed.

(** X11.  [deleteEntry] removes every entry that carries the id from the
    targeted sequence of each open sale selected by [currentSaleId], and
    deleting the same id a second time changes nothing more. *)
Theorem deleteEntry_removes_id (type : EntryType) (id : string) (st : AppState) :
  currentSales (deleteEntry type id (deleteEntry type id st))
  = currentSales (deleteEntry type id st) /\
  forall (sid pid : string) (s : Sale.t),
    selected st sid pid ->
    In s (currentSales (deleteEntry type id st)) ->
    Sale.id s = sid -> Sale.isCompleted s = false ->
    isFresh type id s = true.
Proof.
  split.
  - destruct (deleteEntry_cases type id st) as [(sid & pid & Hsel) | E].
    + pose proof (deleteEntry_selected type id st sid pid Hsel) as Hm.
      pose proof (selected_mapped _ _ _ _ _ Hm Hsel) as Hsel1.
      pose proof (deleteEntry_selected type id _ sid pid Hsel1) as Hm1.
      rewrite (salesMapped_sales _ _ _ Hm1), (salesMapped_sales _ _ _ Hm).
      rewrite map_map. apply map_ext. apply removeEntry_twice.
    + rewrite E, E. reflexivity.
  - intros sid pid s Hsel Hin Hid Hopen.
    pose proof (deleteEntry_selected type id st sid pid Hsel) as Hm.
    rewrite (salesMapped_sales _ _ _ Hm) in Hin.
    apply in_map_iff in Hin. destruct Hin as (s0 & <- & _).
    destruct (removeEntry_frame type sid id s0) as ((Fid & _ & _ & _ & Fc) & _).
    rewrite Fid in Hid. rewrite Fc in Hopen.
    unfold removeEntry, streq. rewrite Hid, String.eqb_refl, Hopen.
    apply dropEntry_isFresh.
Qed.

Lemma deleteEntry_removes_id_witness :
  selected (run scenarioC app0) "1001" "1000" /\
  forall s,
    In s (currentSales (deleteEntry FULL "2001" (run scenarioC app0))) ->
    Sale.id s = "1001"%string -> Sale.isCompleted s = false ->
    isFresh FULL "2001" s = true.
Proof.
  assert (Hsel : selected (run scenarioC app0) "1001" "1000").
  { unfold selected. repeat split. }
  split; [exact Hsel|].
  intros s. apply (proj2 (deleteEntry_removes_id FULL "2001" (run scenarioC app0))
                     "1001"%string "1000"%string s Hsel).
Defined.

(** ** Invariants along traces *)















(** ** What the panels let through *)

Lemma handleSubmit_some (disabled : bool) (maxAllowed : option Q)
      (w c w0 c0 : number) :
  WeighingPanel.handleSubmit disabled maxAllowed w c = Some (w0, c0) ->
  w0 = w /\ c0 = c /\ disabled = false /\
  WeighingPanel.isOverLimit maxAllowed c = false /\
  isNaN c = false /\ number_gt w 0 = true /\ number_gt c 0 = true.
Proof.
  unfold WeighingPanel.handleSubmit.
  destruct disabled; [discriminate|].
  destruct (WeighingPanel.isOverLimit maxAllowed c); [discriminate|].
  destruct (isNaN w); [discriminate|].
  destruct (isNaN c); [discriminate|].
  destruct (number_gt w 0); [|discriminate].
  destruct (number_gt c 0); [|discriminate].
  cbn. intro H. injection H as <- <-. auto 10.
Qed.

Lemma positiveEntries_appendEntry (type : EntryType) (sid eid : string) (w c : Q)
      (ts : Z) (s : Sale.t) :
  0 < w -> 0 < c ->
  positiveEntries s -> positiveEntries (appendEntry type sid eid w c ts s).
Proof.
  intros Hw Hc (Pf & Pe & Pm). unfold appendEntry.
  destruct (streq _ _); [|repeat split; assumption].
  destruct (Sale.isCompleted s); [repeat split; assumption|].
  destruct type; cbn.
  - split; [|split; assumption]. cbn. apply Forall_app. split; [exact Pf|].
    apply Forall_cons; [split; assumption|apply Forall_nil].
  - split; [exact Pf|]. split; [|exact Pm]. cbn. apply Forall_app.
    split; [exact Pe|]. apply Forall_cons; [split; assumption|apply Forall_nil].
  - split; [exact Pf|]. split; [exact Pe|]. cbn. apply Forall_app.
    split; [exact Pm|]. apply Forall_cons; [split; assumption|apply Forall_nil].
Qed.

Lemma addWeight_keeps_positiveEntries (type : EntryType) (w c : Q) (now now' : Z)
      (st : AppState) :
  0 < w -> 0 < c ->
  Forall positiveEntries (currentSales st) ->
  Forall positiveEntries (currentSales (snd (addWeight type w c now now' st))).
Proof.
  intros Hw Hc Hinv.
  destruct (addWeight_cases type w c now now' st)
    as [E | (sid & pid & p0 & cs & _ & _ & _ & _ & _ & _ & Hm)].
  - rewrite E. exact Hinv.
  - rewrite (salesMapped_sales _ _ _ Hm). apply Forall_map.
    revert Hinv. apply Forall_impl. intro s.
    apply positiveEntries_appendEntry; assumption.
Qed.

(** X14.  What the weighing form stores is positive: if every entry of the
    current provider's sales has a positive weight and a positive count,
    this still holds after any submission through the form, with any
    setting of the panel and in both versions of the sale view. *)
Theorem form_keeps_entries_positive (type : EntryType) (disabled : bool)
        (maxAllowed : option Q) (w c : number) (now now' : Z) (st : AppState) :
  Forall positiveEntries (currentSales st) ->
  (forall r, submitWeight type disabled maxAllowed w c now now' st = Some r ->
             Forall positiveEntries (currentSales (snd r))) /\
  (forall r, saleDetailSubmit type w c now now' st = Some r ->
             Forall positiveEntries (currentSales (snd r))) /\
  (forall r, RootView.saleDetailSubmit type w c now now' st = Some r ->
             Forall positiveEntries (currentSales (snd r))).
Proof.
  intro Hinv.
  assert (Hsub : forall d m r,
             submitWeight type d m w c now now' st = Some r ->
             Forall positiveEntries (currentSales (snd r))).
  { intros d m r. unfold submitWeight.
    destruct (WeighingPanel.handleSubmit d m w c) as [[w0 c0]|] eqn:E.
    - destruct (handleSubmit_some _ _ _ _ _ _ E) as (-> & -> & _ & _ & _ & Gw & Gc).
      destruct w as [| | |qw]; try discriminate.
      destruct c as [| | |qc]; try discriminate.
      intro H. injection H as <-.
      apply addWeight_keeps_positiveEntries; [apply gt_true, Gw|apply gt_true, Gc|].
      exact Hinv.
    - intro H. injection H as <-. exact Hinv. }
  split; [apply Hsub|]. split.
  - intro r. unfold saleDetailSubmit.
    destruct (currentSaleId st) as [sid|]; [|intro H; injection H as <-; exact Hinv].
    destruct (currentProvider st) as [cp|]; [|intro H; injection H as <-; exact Hinv].
    destruct (negb _); [intro H; injection H as <-; exact Hinv|].
    destruct (find _ _) as [sale|]; [|intro H; injection H as <-; exact Hinv].
    apply Hsub.
  - intro r. unfold RootView.saleDetailSubmit.
    destruct (currentProvider st) as [cp|]; [|intro H; injection H as <-; exact Hinv].
    destruct (find _ _) as [sale|]; [|intro H; injection H as <-; exact Hinv].
    match goal with
    | |- context [WeighingPanel.handleSubmit ?d ?m w c] =>
        destruct (WeighingPanel.handleSubmit d m w c) as [[w0 c0]|] eqn:E
    end.
    + destruct (handleSubmit_some _ _ _ _ _ _ E) as (-> & -> & _ & _ & _ & Gw & Gc).
      destruct w as [| | |qw]; try discriminate.
      destruct c as [| | |qc]; try discriminate.
      intro H. injection H as <-. rewrite root_addWeight_state.
      apply addWeight_keeps_positiveEntries; [apply gt_true, Gw|apply gt_true, Gc|].
      exact Hinv.
    + intro H. injection H as <-. exact Hinv.
Qed.

Lemma form_keeps_entries_positive_witness :
  Forall positiveEntries (currentSales (run scenarioC app0)) /\
  forall r,
    saleDetailSubmit FULL (Finite 40) (Finite 5) 2007 2007 (run scenarioC app0)
    = Some r ->
    Forall positiveEntries (currentSales (snd r)).
Proof.
  assert (H : Forall positiveEntries (currentSales (run scenarioC app0))).
  { assert (E : currentSales (run scenarioC app0) = [saleC])
      by (vm_compute; reflexivity).
    rewrite E. constructor; [|constructor].
    repeat split; repeat constructor. }
  split; [exact H|].
  apply (form_keeps_entries_positive FULL false None (Finite 40) (Finite 5)
           2007 2007 (run scenarioC app0) H).
Defined.









(** ** What the views show *)

Lemma reduce_map {A B C : Type} (f : C -> B -> C) (g : A -> B) (l : list A) (a : C) :
  reduce f a (map g l) = reduce (fun acc x => f acc (g x)) a l.
Proof.
  unfold reduce. revert a. induction l as [|x l IH]; intro a; cbn.
  - reflexivity.
  - apply IH.
Qed.

(** X18.  The header of each weighing panel shows the figures of the
    ticket: the totals that [WeighingPanel] computes over the entries it is
    given are the weight and count that [calculateSaleMetrics] computes for
    the same sale, for the full crates, the empty crates and the dead
    birds. *)
Theorem panel_totals_are_metrics (s : Sale.t) (chickensPerCrate : option Q) :
  let m := calculateSaleMetrics s chickensPerCrate in
  PanelView.totalWeight (map inl (Sale.fullCrates s)) = fullWeight m /\
  PanelView.totalCount (map inl (Sale.fullCrates s)) = fullCount m /\
  PanelView.totalWeight (map inl (Sale.emptyCrates s)) = emptyWeight m /\
  PanelView.totalCount (map inl (Sale.emptyCrates s)) = emptyCount m /\
  PanelView.totalWeight (map inr (Sale.mortality s)) = deadWeight m /\
  PanelView.totalCount (map inr (Sale.mortality s)) = deadCount m.
Proof.
  unfold PanelView.totalWeight, PanelView.totalCount.
  rewrite !reduce_map. cbn. repeat split; reflexivity.
Qed.

Lemma mapFrom_nth {A B : Type} (f : A -> nat -> B) (xs : list A) (k i : nat) :
  nth_error (PanelView.mapFrom f k xs) i
  = option_map (fun x => f x (k + i)%nat) (nth_error xs i).
Proof.
  revert k i. induction xs as [|x r IH]; intros k i; cbn.
  - destruct i; reflexivity.
  - destruct i as [|i]; cbn.
    + rewrite Nat.add_0_r. reflexivity.
    + rewrite IH. rewrite Nat.add_succ_r. reflexivity.
Qed.

Lemma mapFrom_length {A B : Type} (f : A -> nat -> B) (xs : list A) (k : nat) :
  List.length (PanelView.mapFrom f k xs) = List.length xs.
Proof.
  revert k. induction xs as [|x r IH]; intro k; cbn; [reflexivity|].
  rewrite IH. reflexivity.
Qed.

(** X19.  The list of a panel shows the entries newest first and numbers
    each one by its position in the sequence: the entry at position [j]
    (from 0) is shown in row [length - 1 - j] with the number [j + 1]. *)
Theorem listRows_numbering (entries : list PanelView.Entry) (j : nat)
        (e : PanelView.Entry) :
  nth_error entries j = Some e ->
  List.length (PanelView.listRows entries) = List.length entries /\
  nth_error (PanelView.listRows entries) (List.length entries - 1 - j)
  = Some ((Z.of_nat j + 1)%Z, e).
Proof.
  intro H.
  assert (Hj : (j < List.length entries)%nat)
    by (apply nth_error_Some; rewrite H; discriminate).
  unfold PanelView.listRows. split.
  - rewrite mapFrom_length. apply length_rev.
  - rewrite mapFrom_nth, nth_error_rev.
    assert (L : Nat.ltb (List.length entries - 1 - j) (List.length entries) = true)
      by (apply Nat.ltb_lt; lia).
    rewrite L.
    replace (List.length entries - S (List.length entries - 1 - j))%nat with j by lia.
    rewrite H. cbn. f_equal. f_equal. lia.
Qed.

Lemma listRows_numbering_witness :
  List.length
    (PanelView.listRows (map inl (Sale.fullCrates saleFull))) = 2%nat /\
  nth_error (PanelView.listRows (map inl (Sale.fullCrates saleFull))) 0
  = Some (2%Z, inl (WeightEntry.mk "2002" 52 10 2002)).
Proof.
  apply (listRows_numbering (map inl (Sale.fullCrates saleFull)) 1
           (inl (WeightEntry.mk "2002" 52 10 2002))).
  reflexivity.
Defined.

Lemma present_none {A : Type} (l : list nat) :
  present (map (fun i => nth_error (@nil A) i) l) = [].
Proof.
  induction l as [|i l IH]; cbn; [reflexivity|].
  destruct i; cbn; exact IH.
Qed.

Lemma present_column {A : Type} (l : list A) (n : nat) :
  (List.length l <= n)%nat ->
  present (map (fun i => nth_error l i) (seq 0 n)) = l.
Proof.
  revert n. induction l as [|a l IH]; intros n Hn.
  - apply present_none.
  - destruct n as [|n]; [cbn in Hn; lia|].
    cbn [seq map present flat_map nth_error app].
    f_equal. rewrite <- seq_shift, map_map. cbn [nth_error].
    apply IH. cbn in Hn. lia.
Qed.

(** X20.  The table of the weight detail has as many rows as the longest
    of the three sequences of the sale, and each of its columns holds the
    whole sequence in order: no entry is left out or shown twice. *)
Theorem detailRows_complete (detailSale : Sale.t) :
  List.length (detailRows detailSale)
  = Nat.max (List.length (Sale.fullCrates detailSale))
            (Nat.max (List.length (Sale.emptyCrates detailSale))
                     (List.length (Sale.mortality detailSale))) /\
  present (map (fun r => fst (fst r)) (detailRows detailSale))
  = Sale.fullCrates detailSale /\
  present (map (fun r => snd (fst r)) (detailRows detailSale))
  = Sale.emptyCrates detailSale /\
  present (map (fun r => snd r) (detailRows detailSale))
  = Sale.mortality detailSale.
Proof.
  unfold detailRows. rewrite length_map, length_seq, !map_map. cbn [fst snd].
  split; [reflexivity|].
  split; [|split]; apply present_column; lia.
Qed.

(** ** Charts *)

Lemma spread_ge_last (data : list Q) (last : Q) :
  last <= Math_max_spread data last.
Proof.
  unfold Math_max_spread. induction data as [|v data IH]; cbn.
  - apply Qle_refl.
  - eapply Qle_trans; [exact IH|apply Q.le_max_r].
Qed.

Lemma spread_ge_in (data : list Q) (last v : Q) :
  In v data -> v <= Math_max_spread data last.
Proof.
  unfold Math_max_spread. induction data as [|d data IH]; cbn; [contradiction|].
  intros [->|H].
  - apply Q.le_max_l.
  - eapply Qle_trans; [exact (IH H)|apply Q.le_max_r].
Qed.

Lemma ratio_bounds (v m : Q) :
  0 <= v -> v <= m -> 0 < m -> 0 <= v / m /\ v / m <= 1.
Proof.
  intros H0 H1 Hm. split.
  - apply Qle_shift_div_l; [exact Hm|lra].
  - apply Qle_shift_div_r; [exact Hm|lra].
Qed.

Lemma mapFrom_Forall {A B : Type} (P : B -> Prop) (f : A -> nat -> B)
      (xs : list A) (k : nat) :
  (forall i x, nth_error xs i = Some x -> P (f x (k + i)%nat)) ->
  Forall P (PanelView.mapFrom f k xs).
Proof.
  revert k. induction xs as [|x r IH]; intros k H; cbn; constructor.
  - rewrite <- (Nat.add_0_r k). apply (H 0%nat). reflexivity.
  - apply IH. intros i y Hy. rewrite Nat.add_succ_comm. apply (H (S i)). exact Hy.
Qed.

Lemma linePoints_inBox (data : list Q) :
  Forall (fun v => 0 <= v) data -> Forall inBox (linePoints data).
Proof.
  intro Hpos. unfold linePoints. apply mapFrom_Forall.
  intros i v Hv. cbn [Nat.add].
  assert (Hi : (i < List.length data)%nat)
    by (apply nth_error_Some; rewrite Hv; discriminate).
  assert (Hin : In v data) by (eapply nth_error_In; exact Hv).
  assert (V0 : 0 <= v) by (rewrite Forall_forall in Hpos; apply Hpos; exact Hin).
  pose proof (spread_ge_in data 1 v Hin) as Vm.
  pose proof (spread_ge_last data 1) as M1.
  unfold inBox. cbn [fst snd].
  assert (Y : 0 <= (v - 0) / (Math_max_spread data 1 - 0) /\
              (v - 0) / (Math_max_spread data 1 - 0) <= 1)
    by (apply ratio_bounds; lra).
  destruct Y as [Y0 Y1].
  set (t := (v - 0) / (Math_max_spread data 1 - 0)) in *.
  destruct (Nat.eqb (List.length data) 1) eqn:L1.
  - repeat split; lra.
  - apply Nat.eqb_neq in L1.
    assert (I0 : 0 <= inject_Z (Z.of_nat i))
      by (rewrite <- (Zle_Qle 0); lia).
    assert (I1 : inject_Z (Z.of_nat i) + 1 <= inject_Z (Z.of_nat (List.length data))).
    { change 1 with (inject_Z 1). rewrite <- inject_Z_plus, <- Zle_Qle. lia. }
    assert (N2 : 2 <= inject_Z (Z.of_nat (List.length data))).
    { change 2 with (inject_Z 2). rewrite <- Zle_Qle. lia. }
    assert (X : 0 <= inject_Z (Z.of_nat i)
                     / (inject_Z (Z.of_nat (List.length data)) - 1) /\
                inject_Z (Z.of_nat i)
                / (inject_Z (Z.of_nat (List.length data)) - 1) <= 1)
      by (apply ratio_bounds; lra).
    destruct X as [X0 X1].
    set (u := inject_Z (Z.of_nat i)
              / (inject_Z (Z.of_nat (List.length data)) - 1)) in *.
    repeat split; lra.
Qed.

(** X21.  For data that are not negative, every point of the line chart
    lies in the box of 100 by 100 that the drawing uses, one point per
    datum, and every bar of the bar chart has a height between 0 and 100
    percent: the scale [max] is at least 1 and at least every datum. *)
Theorem charts_within_range (data : list Q) :
  Forall (fun v => 0 <= v) data ->
  List.length (linePoints data) = List.length data /\
  Forall inBox (linePoints data) /\
  Forall (fun h => 0 <= h /\ h <= 100) (barHeights data).
Proof.
  intro Hpos. split; [apply mapFrom_length|]. split; [exact (linePoints_inBox data Hpos)|].
  unfold barHeights. apply Forall_map. rewrite Forall_forall. intros v Hin.
  assert (V0 : 0 <= v) by (rewrite Forall_forall in Hpos; apply Hpos; exact Hin).
  pose proof (spread_ge_in data 1 v Hin) as Vm.
  pose proof (spread_ge_last data 1) as M1.
  destruct (ratio_bounds v (Math_max_spread data 1) V0 Vm) as [Y0 Y1]; [lra|].
  set (t := v / Math_max_spread data 1) in *. split; lra.
Qed.

Lemma charts_within_range_witness :
  List.length (linePoints [2; 0; 5]) = 3%nat /\
  Forall inBox (linePoints [2; 0; 5]) /\
  Forall (fun h => 0 <= h /\ h <= 100) (barHeights [2; 0; 5]).
Proof.
  apply (charts_within_range [2; 0; 5]).
  repeat constructor; discriminate.
Defined.

Lemma mortalityByProvider_positive (providers : list Provider.t) :
  Forall (fun d => 0 < snd d) (mortalityByProvider providers).
Proof.
  unfold mortalityByProvider. rewrite Forall_forall. intros d Hd.
  apply filter_In in Hd. destruct Hd as [_ Hd]. apply gt_true. exact Hd.
Qed.

(** X22.  The mortality chart of the global summary is always drawn
    inside its box: [mortalityByProvider] keeps only the providers with a
    positive number of dead birds, so the data handed to the line chart
    are positive whatever the ledger holds. *)
Theorem mortality_chart_in_box (providers : list Provider.t) :
  Forall (fun d => 0 < snd d) (mortalityByProvider providers) /\
  Forall inBox (linePoints (map snd (mortalityByProvider providers))).
Proof.
  split; [apply mortalityByProvider_positive|].
  apply linePoints_inBox. apply Forall_map.
  pose proof (mortalityByProvider_positive providers) as H.
  revert H. apply Forall_impl. intros d Hd. lra.
Qed.

(** ** Dashboard and daily report *)

(** X23.  On the dashboard, with a stock that is respected the remaining
    stock shown is not negative, and the progress bar of a sale with a
    positive target and no negative crate count is a width between 0 and
    100 percent that is full exactly when the sale has reached its
    target. *)
Theorem dashboard_figures (st : AppState) (p : Provider.t) (sale : Sale.t) :
  currentProvider st = Some p ->
  stockRespected p ->
  0 < Sale.targetFullCrates sale ->
  0 <= fullCountOf sale ->
  0 <= Dashboard.remainingStock st p /\
  exists g,
    Dashboard.progress sale p = Some g /\
    0 <= g /\ g <= 100 /\
    (g == 100 <-> Sale.targetFullCrates sale <= fullCountOf sale).
Proof.
  intros Hp Hs Ht Hc. split.
  - unfold Dashboard.remainingStock. rewrite usedStock_soldAcross.
    unfold currentSales. rewrite Hp. unfold stockRespected in Hs. lra.
  - unfold Dashboard.progress.
    destruct (Qeq_bool (Sale.targetFullCrates sale) 0) eqn:Z0.
    { apply Qeq_bool_iff in Z0. lra. }
    eexists. split; [reflexivity|].
    change (fullCount (calculateSaleMetrics sale
                         (Some (Provider.chickensPerCrate p))))
      with (crateSum (Sale.fullCrates sale)).
    assert (E : crateSum (Sale.fullCrates sale) == fullCountOf sale)
      by apply crateSum_total.
    set (c := crateSum (Sale.fullCrates sale)) in *.
    assert (R0 : 0 <= c / Sale.targetFullCrates sale)
      by (apply Qle_shift_div_l; [exact Ht|lra]).
    assert (R1 : c / Sale.targetFullCrates sale < 1 <-> c < Sale.targetFullCrates sale).
    { split; intro H.
      - destruct (Qlt_le_dec c (Sale.targetFullCrates sale)) as [L|L]; [exact L|].
        exfalso. apply (Qlt_not_le _ _ H).
        apply Qle_shift_div_l; [exact Ht|lra].
      - apply Qlt_shift_div_r; [exact Ht|lra]. }
    set (r := c / Sale.targetFullCrates sale) in *.
    unfold Math_min.
    destruct (Q.min_spec 100 (r * 100)) as [[L M]|[L M]]; rewrite M.
    + split; [lra|]. split; [lra|]. split; [intros _|reflexivity].
      destruct (Qlt_le_dec c (Sale.targetFullCrates sale)) as [K|K]; [|lra].
      apply R1 in K. lra.
    + split; [lra|]. split; [lra|]. split; intro H.
      * destruct (Qlt_le_dec c (Sale.targetFullCrates sale)) as [K|K]; [|lra].
        apply R1 in K. lra.
      * destruct (Qlt_le_dec r 1) as [K|K]; [apply R1 in K; lra|lra].
Qed.

Lemma dashboard_figures_witness :
  0 <= Dashboard.remainingStock (run scenarioFull app0)
         (Provider.with_sales provider0 [saleFull]) /\
  exists g,
    Dashboard.progress saleFull (Provider.with_sales provider0 [saleFull]) = Some g /\
    0 <= g /\ g <= 100 /\
    (g == 100 <-> Sale.targetFullCrates saleFull <= fullCountOf saleFull).
Proof.
  apply (dashboard_figures (run scenarioFull app0)
           (Provider.with_sales provider0 [saleFull]) saleFull).
  - vm_compute. reflexivity.
  - vm_compute. intro H. discriminate H.
  - reflexivity.
  - vm_compute. intro H. discriminate H.
Defined.

Lemma totals_fold (c : option Q) (sales : list Sale.t) (acc : DailyReport.Totals) :
  let t :=
    reduce
      (fun acc sale =>
         let m := calculateSaleMetrics sale c in
         DailyReport.mk (DailyReport.fw acc + fullWeight m)
                        (DailyReport.nw acc + netWeight m)
                        (DailyReport.fc acc + fullCount m)
                        (DailyReport.dc acc + deadCount m)
                        (DailyReport.birds acc + totalBirds m))
      acc sales in
  DailyReport.fc t == DailyReport.fc acc + soldAcross sales /\
  DailyReport.nw acc <= DailyReport.nw t.
Proof.
  unfold reduce. revert acc. induction sales as [|s sales IH]; intro acc.
  - cbn. split; [ring|apply Qle_refl].
  - cbn [fold_left]. destruct (IH (DailyReport.mk
         (DailyReport.fw acc + fullWeight (calculateSaleMetrics s c))
         (DailyReport.nw acc + netWeight (calculateSaleMetrics s c))
         (DailyReport.fc acc + fullCount (calculateSaleMetrics s c))
         (DailyReport.dc acc + deadCount (calculateSaleMetrics s c))
         (DailyReport.birds acc + totalBirds (calculateSaleMetrics s c))))
      as [F N].
    cbv zeta in F, N |- *. split.
    + rewrite F. cbn [DailyReport.fc]. unfold soldAcross. cbn [total].
      change (fullCount (calculateSaleMetrics s c))
        with (crateSum (Sale.fullCrates s)).
      rewrite crateSum_total. unfold fullCountOf. ring.
    + eapply Qle_trans; [|exact N]. cbn [DailyReport.nw].
      assert (K : 0 <= netWeight (calculateSaleMetrics s c))
        by (cbn; unfold Math_max; apply Q.le_max_l).
      lra.
Qed.

(** X24.  The totals of the provider report count the crates that the
    dashboard counts as used stock, their net weight is never negative,
    and so the provider's average weight per bird is never negative
    either. *)
Theorem daily_report_totals (st : AppState) (p : Provider.t) :
  DailyReport.fc (DailyReport.totals st p) == Dashboard.usedStock st /\
  DailyReport.fc (DailyReport.totals st p) == soldAcross (currentSales st) /\
  0 <= DailyReport.nw (DailyReport.totals st p) /\
  0 <= DailyReport.providerAvg st p.
Proof.
  destruct (totals_fold (Some (Provider.chickensPerCrate p)) (currentSales st)
              (DailyReport.mk 0 0 0 0 0)) as [F N].
  cbv zeta in F, N. cbn [DailyReport.fc DailyReport.nw] in F, N.
  fold (DailyReport.totals st p) in F, N.
  assert (F' : DailyReport.fc (DailyReport.totals st p) == soldAcross (currentSales st))
    by (rewrite F; ring).
  split; [rewrite usedStock_soldAcross; exact F'|].
  split; [exact F'|]. split; [exact N|].
  unfold DailyReport.providerAvg.
  destruct (gt (DailyReport.birds (DailyReport.totals st p)) 0) eqn:G.
  - apply gt_true in G. apply Qle_shift_div_l; [exact G|lra].
  - apply Qle_refl.
Qed.

(** ** The report service *)

(** X25.  The figures sent to the report service are those of the ticket
    but for the net weight, which the service does not clamp: the ticket's
    net weight is the larger of zero and the service's, so whenever tare
    and mortality outweigh the gross weight the service is told a negative
    net weight where the ticket prints zero. *)
Theorem report_net_weight_unclamped (s : Sale.t) (chickensPerCrate : option Q) :
  let f := Gemini.figures s in
  let m := calculateSaleMetrics s chickensPerCrate in
  Gemini.totalFullWeight f = fullWeight m /\
  Gemini.totalFullCrates f = fullCount m /\
  Gemini.deadCount f = deadCount m /\
  Gemini.deadWeight f = deadWeight m /\
  Gemini.totalTare f = totalTare m /\
  netWeight m = Math_max 0 (Gemini.netWeight f) /\
  (0 <= Gemini.netWeight f -> netWeight m == Gemini.netWeight f) /\
  (Gemini.netWeight f < 0 ->
   netWeight m == 0 /\ ~ netWeight m == Gemini.netWeight f).
Proof.
  cbv zeta. repeat (split; [reflexivity|]).
  change (netWeight (calculateSaleMetrics s chickensPerCrate))
    with (Math_max 0 (Gemini.netWeight (Gemini.figures s))).
  set (n := Gemini.netWeight (Gemini.figures s)). unfold Math_max. split.
  - intro H. apply Q.max_r. exact H.
  - intro H. assert (E : Qmax 0 n == 0) by (apply Q.max_l; lra).
    split; [exact E|]. rewrite E. lra.
Qed.

Lemma report_net_weight_unclamped_witness :
  Gemini.netWeight (Gemini.figures saleLight) < 0 /\
  netWeight (calculateSaleMetrics saleLight None) == 0 /\
  ~ netWeight (calculateSaleMetrics saleLight None)
    == Gemini.netWeight (Gemini.figures saleLight).
Proof.
  assert (H : Gemini.netWeight (Gemini.figures saleLight) < 0)
    by (vm_compute; reflexivity).
  split; [exact H|].
  apply (report_net_weight_unclamped saleLight None). exact H.
Defined.

(** ** Preview and scale payload *)

Lemma removeChar_filter (c : ascii) (text : string) :
  list_ascii_of_string (removeChar c text)
  = filter (fun d => negb (Ascii.eqb d c)) (list_ascii_of_string text).
Proof.
  induction text as [|d r IH]; cbn; [reflexivity|].
  destruct (Ascii.eqb d c); cbn; [exact IH|]. rewrite IH. reflexivity.
Qed.

Lemma removeChar_append (c : ascii) (t u : string) :
  removeChar c (t ++ u) = (removeChar c t ++ removeChar c u)%string.
Proof.
  induction t as [|d r IH]; cbn; [reflexivity|].
  destruct (Ascii.eqb d c); cbn; rewrite IH; reflexivity.
Qed.

Lemma list_ascii_inj (s t : string) :
  list_ascii_of_string s = list_ascii_of_string t -> s = t.
Proof.
  intro H. rewrite <- (string_of_list_ascii_of_string s),
             <- (string_of_list_ascii_of_string t), H. reflexivity.
Qed.

(** X26.  The preview of a ticket is the ticket without its bytes ESC
    (27) and GS (29) and with every other byte kept in order; previewing
    is idempotent and works piece by piece. *)
Theorem preview_filters_escapes (ticketContent : string) :
  list_ascii_of_string (preview ticketContent)
  = filter (fun d => negb (Ascii.eqb d "027") && negb (Ascii.eqb d "029"))
           (list_ascii_of_string ticketContent) /\
  preview (preview ticketContent) = preview ticketContent /\
  forall more : string,
    preview (ticketContent ++ more)
    = (preview ticketContent ++ preview more)%string.
Proof.
  assert (F : forall t,
             list_ascii_of_string (preview t)
             = filter (fun d => negb (Ascii.eqb d "027") && negb (Ascii.eqb d "029"))
                      (list_ascii_of_string t)).
  { intro t. unfold preview. rewrite !removeChar_filter.
    induction (list_ascii_of_string t) as [|d l IH]; cbn; [reflexivity|].
    destruct (Ascii.eqb d "027"); cbn; [exact IH|].
    destruct (Ascii.eqb d "029"); cbn; [exact IH|]. rewrite IH. reflexivity. }
  split; [apply F|]. split.
  - apply list_ascii_inj. rewrite F, F.
    induction (list_ascii_of_string ticketContent) as [|d l IH]; cbn; [reflexivity|].
    destruct (negb (Ascii.eqb d "027") && negb (Ascii.eqb d "029"))%bool eqn:E;
      cbn; [rewrite E, IH; reflexivity|exact IH].
  - intro more. unfold preview. rewrite !removeChar_append. reflexivity.
Qed.

Lemma regexMatch_some (text : string) :
  noDigit text = false -> exists m, regexMatch text = Some m.
Proof.
  unfold noDigit. induction text as [|c r IH]; cbn [list_ascii_of_string forallb regexMatch].
  - discriminate.
  - destruct (isDigit c) eqn:Hc.
    + intros _. destruct (spanDigits (String c r)) as (ds, rest). eexists. reflexivity.
    + cbn [negb andb]. exact IH.
Qed.

(** X27.  A payload that holds a digit decides the reading alone: the
    draw of [Math.random()] plays no part, so the simulated reading is
    used only for a payload without any digit. *)
Theorem payload_with_digit_decides (text : string) (random random' : Q) :
  noDigit text = false ->
  readScaleWeight (Some (Some text)) random
  = readScaleWeight (Some (Some text)) random' /\
  exists m, regexMatch text = Some m /\
            readScaleWeight (Some (Some text)) random = parseFloat m.
Proof.
  intro H. destruct (regexMatch_some text H) as (m & E).
  unfold readScaleWeight. rewrite E. split; [reflexivity|].
  exists m. split; reflexivity.
Qed.

Lemma payload_with_digit_decides_witness :
  readScaleWeight (Some (Some "ST,GS,+  10.50kg"%string)) 0
  = readScaleWeight (Some (Some "ST,GS,+  10.50kg"%string)) (1 # 2) /\
  exists m, regexMatch "ST,GS,+  10.50kg" = Some m /\
            readScaleWeight (Some (Some "ST,GS,+  10.50kg"%string)) 0 = parseFloat m.
Proof.
  apply (payload_with_digit_decides "ST,GS,+  10.50kg" 0 (1 # 2)).
  reflexivity.
Defined.
